(** * SoulCypher web SDK: session manager, registry facade and API client

    Shallow embedding of [packages/web/src/session.ts] ([AvatarSessionManager]),
    [packages/web/src/sdk.ts] ([SoulCypherSDK]) and the API client
    ([APIClient], unnamed part_000), with the error classes of part_001.

    The program is single-threaded JavaScript.  Every operation is a
    computation in a state/exception monad over a [World] that holds
    - the transport rooms created so far (LiveKit [Room] objects, with their
      connection state and the listeners registered on them),
    - the controller objects ([AvatarSessionManager] instances) in a heap
      addressed by reference, so that the registry and callers share them,
    - the registry ([SoulCypherSDK.sessions], a JS [Map] kept in insertion
      order),
    - a trace of observable effects (transport calls, handler invocations,
      console output, HTTP requests).
    What the outside world does (the transport, [fetch], [JSON.parse],
    the user's handlers) is a parameter [X : Ext]. *)

From Stdlib Require Import String Ascii List Bool ZArith Lia.
Import ListNotations.
Open Scope list_scope.
Open Scope string_scope.

Set Warnings "-register-all".

(** ** JSON values, as [JSON.parse] produces them (numbers restricted to integers) *)
Inductive json :=
| JNull
| JBool (b : bool)
| JNum (n : Z)
| JStr (s : string)
| JArr (xs : list json)
| JObj (kvs : list (string * json)).

(** ** Errors (part_001: SoulCypherError and its subclasses) *)
Record SdkError := mkSdkError {
  err_name : string;
  err_message : string;
  err_code : option string;
  err_status : option Z
}.

Definition SoulCypherError (message : string) (code : option string) (status : option Z) : SdkError :=
  mkSdkError "SoulCypherError" message code status.
Definition AuthenticationError (message : string) : SdkError :=
  mkSdkError "AuthenticationError" message (Some "AUTHENTICATION_ERROR") (Some 401%Z).
Definition RateLimitError (message : string) : SdkError :=
  mkSdkError "RateLimitError" message (Some "RATE_LIMIT_ERROR") (Some 429%Z).
Definition SessionError (message : string) : SdkError :=
  mkSdkError "SessionError" message (Some "SESSION_ERROR") None.
Definition ConnectionError (message : string) : SdkError :=
  mkSdkError "ConnectionError" message (Some "CONNECTION_ERROR") None.

(** A thrown JavaScript value: an SDK error (an [Error] that is an
    [instanceof SoulCypherError]), another [Error] (name and message), or a
    value that is not an [Error] at all. *)
Inductive exn :=
| ExnSdk (e : SdkError)
| ExnError (name message : string)
| ExnValue.

(** [error instanceof Error ? error.message : "Unknown error"] *)
Definition error_message (e : exn) : string :=
  match e with
  | ExnSdk r => err_message r
  | ExnError _ m => m
  | ExnValue => "Unknown error"
  end.

Inductive result (A : Type) :=
| Ok (a : A)
| Throw (e : exn).
Arguments Ok {A} a.
Arguments Throw {A} e.

(** ** Constants *)

(** Modelled from the spec: constants.ts (SESSION_EVENTS, AVATAR_EVENTS,
    CONNECTION_EVENTS, MESSAGE_TYPES) is not among the sources; the event
    names are the vocabulary of the spec's sections 4.3 and 6 and the
    data-channel discriminators are the wire format of section 6. *)
Definition SESSION_STARTED := "session.started".
Definition SESSION_ENDED := "session.ended".
Definition AVATAR_VIDEO := "avatar.video".
Definition AVATAR_AUDIO := "avatar.audio".
Definition AVATAR_RESPONSE := "avatar.response".
Definition AVATAR_STATUS := "avatar.status".
Definition AVATAR_ERROR := "avatar.error".
Definition CONNECTION_QUALITY := "connection.quality".
Definition MESSAGE_CHAT := "chat".
Definition MESSAGE_STATUS := "status".
Definition MESSAGE_RESPONSE := "response".
Definition MESSAGE_ERROR := "error".

(** ** Data model *)

(** [AvatarSession] (part_001).  The token and URL are optional: a server
    response may lack them, which [connect] checks.  The nested avatar
    descriptor is not read by any operation modelled here. *)
Record AvatarSession := mkAvatarSession {
  s_id : string;
  s_sessionId : string;
  s_roomName : string;
  s_liveKitToken : option string;
  s_liveKitUrl : option string;
  s_expiresAt : string
}.

(** LiveKit's [ConnectionState]. *)
Inductive RoomState :=
| RSDisconnected | RSConnecting | RSConnected | RSReconnecting | RSSignalReconnecting.

(** A listener registered with [room.on]; [c] is the controller whose
    [this] the arrow function captured. *)
Inductive Listener :=
| LTrackSubscribed (c : nat)
| LDataReceived (c : nat)
| LDisconnected (c : nat)
| LQualityChanged (c : nat)
| LMediaTrackSubscribed (videoElement audioElement : option nat)
| LMediaTrackUnsubscribed.

Record Room := mkRoom {
  room_state : RoomState;
  room_listeners : list Listener
}.

Inductive EventPayload :=
| PSession (s : AvatarSession)
| PTrack (track participant : nat)
| PStatus (status text : option json) (participant : nat)
| PText (text : option json) (participant : nat)
| PQuality (quality participant : nat).

Record SessionEventData := mkEvent {
  ev_type : string;
  ev_session : AvatarSession;
  ev_timestamp : string;
  ev_data : EventPayload
}.

(** An [AvatarSessionManager]: [room], [session], [eventHandlers]
    (a [Map] from event type to an array of handlers; handlers are
    function objects, compared by identity, here numbered). *)
Record Ctl := mkCtl {
  ctl_room : option nat;
  ctl_session : AvatarSession;
  ctl_handlers : list (string * list nat)
}.

(** The outcome of a promise the transport returns. *)
Inductive PromiseOutcome :=
| PResolved
| PRejected (e : exn).

(** The outcome of [room.connect(url, token)]: success, or a rejection
    together with the state the room is left in. *)
Inductive ConnOutcome :=
| ConnOk
| ConnFail (e : exn) (state_after : RoomState).

(** Observable effects. *)
Inductive io :=
| IORoomConnect (room : nat) (url token : string)
| IORoomDisconnect (room : nat) (outcome : PromiseOutcome)
| IOPublishData (room : nat) (bytes : list Byte.byte)
| IOInvoke (handler : nat) (ev : SessionEventData)
| IOAttach (track element : nat)
| IODetach (track : nat)
| IOConsoleError (what : string)
| IOConsoleWarn (what : string)
| IOFetch (url method : string) (apiKey : option string).

Record World := mkWorld {
  w_rooms : list (nat * Room);
  w_ctls : list (nat * Ctl);
  w_sessions : list (string * nat);
  w_next : nat;
  w_now : string;
  w_trace : list io
}.

(** ** JS [Map] as an association list in insertion order *)
Section AMap.
Context {K V : Type} (eqb : K -> K -> bool).

Fixpoint amap_get (k : K) (m : list (K * V)) : option V :=
  match m with
  | [] => None
  | (k', v) :: t => if eqb k k' then Some v else amap_get k t
  end.

(** [Map.set]: an existing key keeps its position, a new key goes last. *)
Fixpoint amap_set (k : K) (v : V) (m : list (K * V)) : list (K * V) :=
  match m with
  | [] => [(k, v)]
  | (k', v') :: t => if eqb k k' then (k', v) :: t else (k', v') :: amap_set k v t
  end.

Fixpoint amap_delete (k : K) (m : list (K * V)) : list (K * V) :=
  match m with
  | [] => []
  | (k', v') :: t => if eqb k k' then t else (k', v') :: amap_delete k t
  end.
End AMap.

(** ** The state/exception monad *)
Definition M (A : Type) := World -> result A * World.

Definition ret {A} (a : A) : M A := fun w => (Ok a, w).
Definition bind {A B} (m : M A) (k : A -> M B) : M B :=
  fun w => match m w with
           | (Ok a, w') => k a w'
           | (Throw e, w') => (Throw e, w')
           end.
Definition throw {A} (e : exn) : M A := fun w => (Throw e, w).
(** [try { m } catch (e) { h(e) }] *)
Definition catch {A} (m : M A) (h : exn -> M A) : M A :=
  fun w => match m w with
           | (Throw e, w') => h e w'
           | r => r
           end.

Notation "x <- m ;; k" := (bind m (fun x => k))
  (at level 61, m at next level, right associativity).
Notation "m ;; k" := (bind m (fun _ => k)) (at level 61, right associativity).

Definition tell (e : io) : M unit :=
  fun w => (Ok tt, mkWorld (w_rooms w) (w_ctls w) (w_sessions w) (w_next w) (w_now w) (w_trace w ++ [e])%list).
Definition now : M string := fun w => (Ok (w_now w), w).

Definition get_ctl (c : nat) : M Ctl :=
  fun w => match amap_get Nat.eqb c (w_ctls w) with
           | Some x => (Ok x, w)
           | None => (Throw (ExnError "TypeError" "dangling controller"), w)
           end.
Definition put_ctl (c : nat) (x : Ctl) : M unit :=
  fun w => (Ok tt, mkWorld (w_rooms w) (amap_set Nat.eqb c x (w_ctls w)) (w_sessions w)
                           (w_next w) (w_now w) (w_trace w)).
Definition get_room (rid : nat) : M Room :=
  fun w => match amap_get Nat.eqb rid (w_rooms w) with
           | Some r => (Ok r, w)
           | None => (Throw (ExnError "TypeError" "dangling room"), w)
           end.
Definition put_room (rid : nat) (r : Room) : M unit :=
  fun w => (Ok tt, mkWorld (amap_set Nat.eqb rid r (w_rooms w)) (w_ctls w) (w_sessions w)
                           (w_next w) (w_now w) (w_trace w)).
Definition fresh : M nat :=
  fun w => (Ok (w_next w), mkWorld (w_rooms w) (w_ctls w) (w_sessions w)
                                  (S (w_next w)) (w_now w) (w_trace w)).
Definition get_sessions : M (list (string * nat)) := fun w => (Ok (w_sessions w), w).
Definition put_sessions (s : list (string * nat)) : M unit :=
  fun w => (Ok tt, mkWorld (w_rooms w) (w_ctls w) s (w_next w) (w_now w) (w_trace w)).

Definition set_room (x : Ctl) (r : option nat) : Ctl := mkCtl r (ctl_session x) (ctl_handlers x).
Definition set_handlers (x : Ctl) (h : list (string * list nat)) : Ctl :=
  mkCtl (ctl_room x) (ctl_session x) h.

(** A [fetch] response: status and the body as [response.text()] yields it
    (reading the body may itself fail). *)
Record Response := mkResponse {
  resp_status : Z;
  resp_body : result string
}.

Inductive FetchOutcome :=
| FetchRejected (e : exn)
| FetchResponse (r : Response).

(** ** Host behaviour *)
Record Ext := mkExt {
  x_fetch : string -> string -> FetchOutcome;        (** [fetch(url, {method})] *)
  x_json_parse : string -> option json;             (** [JSON.parse]; [None]: it throws *)
  x_json_error : string -> exn;                     (** the SyntaxError [JSON.parse(t)] throws *)
  x_json_stringify : json -> string;
  x_text_encode : string -> list Byte.byte;
  x_text_decode : list Byte.byte -> string;
  x_handler_throws : nat -> SessionEventData -> bool; (** does this user handler throw? *)
  x_room_connect : nat -> string -> string -> ConnOutcome;
  x_room_disconnect : nat -> PromiseOutcome;
  x_publish : nat -> list Byte.byte -> PromiseOutcome
}.

(** ** JavaScript semantics used by the code *)

(** Property read [v.p] on a parsed JSON value: [null] throws a TypeError,
    other non-objects have no such property ([undefined] is [None]); a
    duplicated key keeps its last value, as [JSON.parse] does. *)
Fixpoint assoc_last (k : string) (kvs : list (string * json)) : option json :=
  match kvs with
  | [] => None
  | (k', v) :: t =>
      match assoc_last k t with
      | Some x => Some x
      | None => if String.eqb k k' then Some v else None
      end
  end.

Definition get_prop (v : json) (p : string) : M (option json) :=
  match v with
  | JNull => throw (ExnError "TypeError" ("Cannot read properties of null (reading '" ++ p ++ "')"))
  | JObj kvs => ret (assoc_last p kvs)
  | _ => ret None
  end.

(** [v === "s"] for a property value. *)
Definition js_str_eq (v : option json) (s : string) : bool :=
  match v with
  | Some (JStr t) => String.eqb t s
  | _ => false
  end.

(** Truthiness of an optional string field ([undefined] and [""] are falsy). *)
Definition truthy_str (o : option string) : bool :=
  match o with
  | Some s => negb (String.eqb s "")
  | None => false
  end.

Definition option_is_some {A} (o : option A) : bool :=
  match o with Some _ => true | None => false end.

Definition default_str (o : option string) : string :=
  match o with Some s => s | None => "" end.

Definition map_has {V} (k : string) (m : list (string * V)) : bool :=
  match amap_get String.eqb k m with Some _ => true | None => false end.

(** [Array.prototype.indexOf] on handler identities; [None] is [-1]. *)
Fixpoint indexOf (h : nat) (l : list nat) : option nat :=
  match l with
  | [] => None
  | x :: t => if Nat.eqb x h then Some 0 else option_map S (indexOf h t)
  end.

(** [handlers.splice(index, 1)] *)
Fixpoint splice1 (i : nat) (l : list nat) : list nat :=
  match i, l with
  | _, [] => []
  | 0, _ :: t => t
  | S i', x :: t => x :: splice1 i' t
  end.

(** ** [AvatarSessionManager] (session.ts) *)
Section Controller.
Variable X : Ext.

(** [handlers.forEach(handler => { try { handler(eventData) } catch (error) { console.error(...) } })] *)
Fixpoint forEach_handlers (hs : list nat) (ev : SessionEventData) : M unit :=
  match hs with
  | [] => ret tt
  | h :: t =>
      catch (tell (IOInvoke h ev) ;;
             if x_handler_throws X h ev then throw ExnValue else ret tt)
            (fun _ => tell (IOConsoleError "Error in event handler:")) ;;
      forEach_handlers t ev
  end.

(** [emitEvent(type, data)] *)
Definition emitEvent (c : nat) (type : string) (data : EventPayload) : M unit :=
  ctl <- get_ctl c ;;
  match amap_get String.eqb type (ctl_handlers ctl) with
  | None => ret tt
  | Some handlers =>
      ts <- now ;;
      forEach_handlers handlers (mkEvent type (ctl_session ctl) ts data)
  end.

(** [on(event, handler)] *)
Definition on (c : nat) (event : string) (handler : nat) : M unit :=
  ctl <- get_ctl c ;;
  let hm0 := ctl_handlers ctl in
  let hm := if map_has event hm0 then hm0 else amap_set String.eqb event [] hm0 in
  let hs := match amap_get String.eqb event hm with Some l => l | None => [] end in
  put_ctl c (set_handlers ctl (amap_set String.eqb event (hs ++ [handler])%list hm)).

(** [off(event, handler)] *)
Definition off (c : nat) (event : string) (handler : nat) : M unit :=
  ctl <- get_ctl c ;;
  match amap_get String.eqb event (ctl_handlers ctl) with
  | None => ret tt
  | Some handlers =>
      match indexOf handler handlers with
      | None => ret tt
      | Some index =>
          put_ctl c (set_handlers ctl
                       (amap_set String.eqb event (splice1 index handlers) (ctl_handlers ctl)))
      end
  end.

(** [this.room.disconnect()]: the returned promise is not awaited, so its
    outcome (recorded in the trace) never reaches the caller. *)
Definition room_disconnect (rid : nat) : M unit :=
  tell (IORoomDisconnect rid (x_room_disconnect X rid)).

(** [disconnect()] *)
Definition disconnect (c : nat) : M unit :=
  ctl <- get_ctl c ;;
  (match ctl_room ctl with
   | Some rid => room_disconnect rid ;; put_ctl c (set_room ctl None)
   | None => ret tt
   end) ;;
  ctl' <- get_ctl c ;;
  emitEvent c SESSION_ENDED (PSession (ctl_session ctl')).

(** [sendMessage(message)] *)
Definition sendMessage (c : nat) (message : string) : M unit :=
  ctl <- get_ctl c ;;
  match ctl_room ctl with
  | None => throw (ExnSdk (SessionError "Not connected to session"))
  | Some rid =>
      catch (let bytes := x_text_encode X (x_json_stringify X
                            (JObj [("type", JStr MESSAGE_CHAT); ("text", JStr message)])) in
             tell (IOPublishData rid bytes) ;;
             match x_publish X rid bytes with
             | PResolved => ret tt
             | PRejected e => throw e
             end)
            (fun error => throw (ExnSdk (SessionError ("Failed to send message: " ++ error_message error))))
  end.

(** [getStatus()] *)
Definition getStatus (c : nat) : M string :=
  ctl <- get_ctl c ;;
  match ctl_room ctl with
  | None => ret "disconnected"
  | Some rid =>
      r <- get_room rid ;;
      ret (match room_state r with
           | RSConnected => "connected"
           | RSConnecting => "connecting"
           | RSDisconnected => "disconnected"
           | _ => "error"
           end)
  end.

Definition add_listener (rid : nat) (l : Listener) : M unit :=
  r <- get_room rid ;;
  put_room rid (mkRoom (room_state r) (room_listeners r ++ [l])%list).

Definition set_room_state (rid : nat) (st : RoomState) : M unit :=
  r <- get_room rid ;;
  put_room rid (mkRoom st (room_listeners r)).

(** [setupRoomEventHandlers()] *)
Definition setupRoomEventHandlers (c : nat) : M unit :=
  ctl <- get_ctl c ;;
  match ctl_room ctl with
  | None => ret tt
  | Some rid =>
      add_listener rid (LTrackSubscribed c) ;;
      add_listener rid (LDataReceived c) ;;
      add_listener rid (LDisconnected c) ;;
      add_listener rid (LQualityChanged c)
  end.

(** [setupMediaElements(videoElement, audioElement)] *)
Definition setupMediaElements (c : nat) (videoElement audioElement : option nat) : M unit :=
  ctl <- get_ctl c ;;
  match ctl_room ctl with
  | None => ret tt
  | Some rid =>
      add_listener rid (LMediaTrackSubscribed videoElement audioElement) ;;
      add_listener rid LMediaTrackUnsubscribed
  end.

(** [new Room()]: a fresh room object, initially disconnected. *)
Definition new_room : M nat :=
  rid <- fresh ;;
  put_room rid (mkRoom RSDisconnected []) ;;
  ret rid.

(** [await this.room.connect(url, token)] *)
Definition room_connect (rid : nat) (url token : string) : M unit :=
  tell (IORoomConnect rid url token) ;;
  match x_room_connect X rid url token with
  | ConnOk => set_room_state rid RSConnected
  | ConnFail e st => set_room_state rid st ;; throw e
  end.

(** [connect(videoElement?, audioElement?)].  [await this.room.connect]
    is one step here: transport notifications that arrive while it is
    pending are not represented. *)
Definition connect (c : nat) (videoElement audioElement : option nat) : M unit :=
  ctl <- get_ctl c ;;
  let s := ctl_session ctl in
  if negb (truthy_str (s_liveKitToken s)) || negb (truthy_str (s_liveKitUrl s)) then
    throw (ExnSdk (ConnectionError "LiveKit connection details not available"))
  else
    catch (rid <- new_room ;;
           ctl1 <- get_ctl c ;;
           put_ctl c (set_room ctl1 (Some rid)) ;;
           setupRoomEventHandlers c ;;
           room_connect rid (default_str (s_liveKitUrl s)) (default_str (s_liveKitToken s)) ;;
           (if option_is_some videoElement || option_is_some audioElement
            then setupMediaElements c videoElement audioElement
            else ret tt) ;;
           emitEvent c SESSION_STARTED (PSession s))
          (fun error =>
             throw (ExnSdk (ConnectionError ("Failed to connect to LiveKit: " ++ error_message error)))).
End Controller.

(** ** Transport notifications: the listeners of [setupRoomEventHandlers]
    and [setupMediaElements] *)
Inductive RoomEvent :=
| RETrackSubscribed (kind : string) (track participant : nat)
| RETrackUnsubscribed (track : nat)
| REDataReceived (payload : list Byte.byte) (participant : nat)
| REDisconnected
| REQualityChanged (quality participant : nat).

Section Normalizer.
Variable X : Ext.

(** [RoomEvent.TrackSubscribed] listener of [setupRoomEventHandlers] *)
Definition onTrackSubscribed (c : nat) (kind : string) (track participant : nat) : M unit :=
  if String.eqb kind "video" then emitEvent X c AVATAR_VIDEO (PTrack track participant)
  else if String.eqb kind "audio" then emitEvent X c AVATAR_AUDIO (PTrack track participant)
  else ret tt.

(** [RoomEvent.DataReceived] listener *)
Definition onDataReceived (c : nat) (payload : list Byte.byte) (participant : nat) : M unit :=
  catch (match x_json_parse X (x_text_decode X payload) with
         | None => throw (x_json_error X (x_text_decode X payload))
         | Some data =>
             ty <- get_prop data "type" ;;
             if js_str_eq ty MESSAGE_STATUS then
               st <- get_prop data "status" ;;
               tx <- get_prop data "text" ;;
               emitEvent X c AVATAR_STATUS (PStatus st tx participant)
             else if js_str_eq ty MESSAGE_RESPONSE then
               tx <- get_prop data "text" ;;
               emitEvent X c AVATAR_RESPONSE (PText tx participant)
             else if js_str_eq ty MESSAGE_ERROR then
               tx <- get_prop data "text" ;;
               emitEvent X c AVATAR_ERROR (PText tx participant)
             else ret tt
         end)
        (fun _ => tell (IOConsoleWarn "Failed to parse avatar message:")).

(** [RoomEvent.Disconnected] listener *)
Definition onDisconnected (c : nat) : M unit :=
  ctl <- get_ctl c ;;
  emitEvent X c SESSION_ENDED (PSession (ctl_session ctl)).

(** [RoomEvent.ConnectionQualityChanged] listener *)
Definition onQualityChanged (c : nat) (quality participant : nat) : M unit :=
  emitEvent X c CONNECTION_QUALITY (PQuality quality participant).

(** [RoomEvent.TrackSubscribed] listener of [setupMediaElements]; a
    [RemoteVideoTrack] has kind ["video"], a [RemoteAudioTrack] ["audio"]. *)
Definition onMediaTrackSubscribed (videoElement audioElement : option nat)
           (kind : string) (track : nat) : M unit :=
  match String.eqb kind "video", videoElement with
  | true, Some v => tell (IOAttach track v)
  | _, _ =>
      match String.eqb kind "audio", audioElement with
      | true, Some a => tell (IOAttach track a)
      | _, _ => ret tt
      end
  end.

Definition run_listener (l : Listener) (e : RoomEvent) : M unit :=
  match l, e with
  | LTrackSubscribed c, RETrackSubscribed k t p => onTrackSubscribed c k t p
  | LDataReceived c, REDataReceived b p => onDataReceived c b p
  | LDisconnected c, REDisconnected => onDisconnected c
  | LQualityChanged c, REQualityChanged q p => onQualityChanged c q p
  | LMediaTrackSubscribed v a, RETrackSubscribed k t _ => onMediaTrackSubscribed v a k t
  | LMediaTrackUnsubscribed, RETrackUnsubscribed t => tell (IODetach t)
  | _, _ => ret tt
  end.

Fixpoint run_listeners (ls : list Listener) (e : RoomEvent) : M unit :=
  match ls with
  | [] => ret tt
  | l :: t => run_listener l e ;; run_listeners t e
  end.

(** The room [rid] emits [e] to its listeners, in registration order;
    a room reports [Disconnected] after its state became disconnected. *)
Definition room_emit (rid : nat) (e : RoomEvent) : M unit :=
  (match e with
   | REDisconnected => set_room_state rid RSDisconnected
   | _ => ret tt
   end) ;;
  r <- get_room rid ;;
  run_listeners (room_listeners r) e.
End Normalizer.

(** ** JS string conversions used for error messages *)

(** Decimal digits of a non-negative integer, most significant first. *)
Fixpoint digits_rev (fuel : nat) (n : Z) (acc : string) : string :=
  match fuel with
  | O => acc
  | S f =>
      let acc' := String (ascii_of_nat (48 + Z.to_nat (Z.modulo n 10))) acc in
      if Z.eqb (Z.div n 10) 0 then acc' else digits_rev f (Z.div n 10) acc'
  end.

(** [String(n)] for an integer [n]. *)
Definition Z_to_string (n : Z) : string :=
  let fuel := S (Z.to_nat (Z.log2 (Z.abs n))) in
  if Z.ltb n 0 then "-" ++ digits_rev fuel (Z.abs n) "" else digits_rev fuel n "".

(** Truthiness of a property value ([undefined] is [None]). *)
Definition js_truthy (v : option json) : bool :=
  match v with
  | None | Some JNull => false
  | Some (JBool b) => b
  | Some (JNum n) => negb (Z.eqb n 0)
  | Some (JStr s) => negb (String.eqb s "")
  | Some (JArr _) | Some (JObj _) => true
  end.

Fixpoint join_comma (l : list string) : string :=
  match l with
  | [] => ""
  | [x] => x
  | x :: t => x ++ "," ++ join_comma t
  end.

(** [String(v)], as the [Error] constructor applies it to its message. *)
Fixpoint js_to_string (v : json) : string :=
  match v with
  | JNull => "null"
  | JBool true => "true"
  | JBool false => "false"
  | JNum n => Z_to_string n
  | JStr s => s
  | JArr xs => join_comma (map (fun x => match x with JNull => "" | _ => js_to_string x end) xs)
  | JObj _ => "[object Object]"
  end.

(** ** [APIClient] (part_000) *)
Record APIClient := mkAPIClient {
  baseUrl : string;
  apiKey : string
}.

Definition response_ok (r : Response) : bool :=
  Z.leb 200 (resp_status r) && Z.leb (resp_status r) 299.

Section Api.
Variable X : Ext.

(** [await response.text()] *)
Definition response_text (r : Response) : M string :=
  match resp_body r with
  | Ok t => ret t
  | Throw e => throw e
  end.

(** [response.json()] *)
Definition response_json (r : Response) : M json :=
  t <- response_text r ;;
  match x_json_parse X t with
  | Some j => ret j
  | None => throw (x_json_error X t)
  end.

(** [handleErrorResponse(response)]: always throws. *)
Definition handleErrorResponse (response : Response) : M unit :=
  text <- response_text response ;;
  let errorData := match x_json_parse X text with
                   | Some j => j
                   | None => JObj [("message", JStr text)]
                   end in
  m <- get_prop errorData "message" ;;
  let status := resp_status response in
  let message := if js_truthy m then
                   match m with Some v => js_to_string v | None => "" end
                 else "Request failed with status " ++ Z_to_string status in
  if Z.eqb status 401 then throw (ExnSdk (AuthenticationError message))
  else if Z.eqb status 429 then throw (ExnSdk (RateLimitError message))
  else if Z.eqb status 400 then throw (ExnSdk (SoulCypherError message (Some "VALIDATION_ERROR") (Some 400%Z)))
  else if Z.eqb status 404 then throw (ExnSdk (SoulCypherError message (Some "NOT_FOUND") (Some 404%Z)))
  else if Z.eqb status 500 then throw (ExnSdk (SoulCypherError message (Some "INTERNAL_ERROR") (Some 500%Z)))
  else throw (ExnSdk (SoulCypherError message (Some "API_ERROR") (Some status))).

(** [request(endpoint, options)].  [return response.json()] hands back an
    unawaited promise, so a failure of the body parse is outside the
    [try] and is not wrapped. *)
Definition request (api : APIClient) (endpoint method : string) : M json :=
  let url := baseUrl api ++ "/v1" ++ endpoint in
  response <- catch (tell (IOFetch url method (Some (apiKey api))) ;;
                     match x_fetch X url method with
                     | FetchRejected e => throw e
                     | FetchResponse r =>
                         (if negb (response_ok r) then handleErrorResponse r else ret tt) ;;
                         ret r
                     end)
                    (fun error =>
                       match error with
                       | ExnSdk _ => throw error
                       | _ => throw (ExnSdk (SoulCypherError
                                               ("Request failed: " ++ error_message error)
                                               (Some "NETWORK_ERROR") None))
                       end) ;;
  response_json response.

Definition str_field (kvs : list (string * json)) (k : string) : option string :=
  match assoc_last k kvs with
  | Some (JStr s) => Some s
  | _ => None
  end.

(** The cast of a response body to [AvatarSession]: the body is taken to
    have the declared shape; a body that is not an object is refused. *)
Definition session_of_json (j : json) : M AvatarSession :=
  match j with
  | JObj kvs =>
      ret (mkAvatarSession (default_str (str_field kvs "id")) (default_str (str_field kvs "sessionId"))
                           (default_str (str_field kvs "roomName"))
                           (str_field kvs "liveKitToken") (str_field kvs "liveKitUrl")
                           (default_str (str_field kvs "expiresAt")))
  | _ => throw (ExnError "TypeError" "session is not an object")
  end.

(** [apiClient.getSession(sessionId)] *)
Definition api_getSession (api : APIClient) (sessionId : string) : M AvatarSession :=
  j <- request api ("/sessions/" ++ sessionId) "GET" ;;
  session_of_json j.

(** [apiClient.endSession(sessionId)] *)
Definition api_endSession (api : APIClient) (sessionId : string) : M unit :=
  request api ("/sessions/" ++ sessionId ++ "/end") "POST" ;;
  ret tt.
End Api.

(** ** [SoulCypherSDK] (sdk.ts); the registry is [w_sessions] *)
Section Sdk.
Variable X : Ext.
Variable api : APIClient.

(** [new AvatarSessionManager(session)] *)
Definition new_controller (s : AvatarSession) : M nat :=
  c <- fresh ;;
  put_ctl c (mkCtl None s []) ;;
  ret c.

(** [getSession(sessionId)] *)
Definition getSession (sessionId : string) : M (option nat) :=
  sessions <- get_sessions ;;
  match amap_get String.eqb sessionId sessions with
  | Some existingSession => ret (Some existingSession)
  | None =>
      catch (session <- api_getSession X api sessionId ;;
             sessionManager <- new_controller session ;;
             ss <- get_sessions ;;
             put_sessions (amap_set String.eqb (s_id session) sessionManager ss) ;;
             ret (Some sessionManager))
            (fun _ => ret None)
  end.

(** [endSession(sessionId)] *)
Definition endSession (sessionId : string) : M unit :=
  sessions <- get_sessions ;;
  (match amap_get String.eqb sessionId sessions with
   | Some sessionManager =>
       disconnect X sessionManager ;;
       ss <- get_sessions ;;
       put_sessions (amap_delete String.eqb sessionId ss)
   | None => ret tt
   end) ;;
  api_endSession X api sessionId.

(** Calling an [async] function: it runs to its first [await] (here, to
    its end) and never throws at the call; its failure is held in the
    returned promise. *)
Definition call_async (m : M unit) : M (result unit) :=
  fun w => let (r, w') := m w in (Ok r, w').

Fixpoint call_all (ps : list (M unit)) : M (list (result unit)) :=
  match ps with
  | [] => ret []
  | p :: t => r <- call_async p ;; rs <- call_all t ;; ret (r :: rs)
  end.

(** [await Promise.all(promises)]: rejects with the first rejection. *)
Fixpoint promise_all (rs : list (result unit)) : M unit :=
  match rs with
  | [] => ret tt
  | Ok _ :: t => promise_all t
  | Throw e :: _ => throw e
  end.

(** [cleanup()] *)
Definition cleanup : M unit :=
  sessions <- get_sessions ;;
  rs <- call_all (map (fun kv => disconnect X (snd kv)) sessions) ;;
  promise_all rs ;;
  put_sessions [].
End Sdk.

(** ** Construction (sdk.ts and part_000 constructors) *)

(** [SDKConfig]; [environment] is read by no code. *)
Record SDKConfig := mkSDKConfig {
  cfg_apiKey : option string;
  cfg_baseUrl : option string
}.

(** [new APIClient(config)]: [this.baseUrl = config.baseUrl || ...], and a
    falsy key is refused. *)
Definition new_APIClient (config : SDKConfig) : result APIClient :=
  let base := if truthy_str (cfg_baseUrl config) then default_str (cfg_baseUrl config)
              else "https://api.soulcypher.ai" in
  if negb (truthy_str (cfg_apiKey config))
  then Throw (ExnSdk (AuthenticationError "API key is required"))
  else Ok (mkAPIClient base (default_str (cfg_apiKey config))).

(** [new SoulCypherSDK(config)]: its own key check, then the client; the
    new instance's registry is an empty [Map]. *)
Definition new_SoulCypherSDK (config : SDKConfig) : result APIClient :=
  if negb (truthy_str (cfg_apiKey config))
  then Throw (ExnSdk (AuthenticationError "API key is required"))
  else new_APIClient config.

(** ** The other [APIClient] operations (part_000).  The host's answer is a
    function of the URL and the method ([x_fetch]), so the JSON request body
    of the two POST operations is not represented. *)
Section Api2.
Variable X : Ext.




(** [createSession(request)] *)
Definition api_createSession (api : APIClient) : M AvatarSession :=
  j <- request X api "/sessions/create" "POST" ;;
  session_of_json j.


(** [ping()]: [baseUrl/health], outside [/v1], with no [X-API-Key]
    header; as in [request], [return response.json()] is outside the
    [try]. *)
Definition api_ping (api : APIClient) : M json :=
  let url := baseUrl api ++ "/health" in
  response <- catch (tell (IOFetch url "GET" None) ;;
                     match x_fetch X url "GET" with
                     | FetchRejected e => throw e
                     | FetchResponse r =>
                         (if negb (response_ok r)
                          then throw (ExnSdk (SoulCypherError
                                                ("Health check failed: " ++ Z_to_string (resp_status r))
                                                (Some "HEALTH_CHECK_ERROR") (Some (resp_status r))))
                          else ret tt) ;;
                         ret r
                     end)
                    (fun error =>
                       match error with
                       | ExnSdk _ => throw error
                       | _ => throw (ExnSdk (SoulCypherError
                                               ("Health check failed: " ++ error_message error)
                                               (Some "NETWORK_ERROR") None))
                       end) ;;
  response_json X response.
End Api2.

(** ** The other [SoulCypherSDK] operations (sdk.ts) *)
Section Sdk2.
Variable X : Ext.
Variable api : APIClient.




(** [createSession(request)] *)
Definition createSession : M nat :=
  session <- api_createSession X api ;;
  sessionManager <- new_controller session ;;
  ss <- get_sessions ;;
  put_sessions (amap_set String.eqb (s_id session) sessionManager ss) ;;
  ret sessionManager.


(** [getActiveSessions()]: [Array.from(this.sessions.values())] *)
Definition getActiveSessions : M (list nat) :=
  ss <- get_sessions ;;
  ret (map snd ss).

(** [ping()] *)
Definition ping : M bool :=
  catch (api_ping X api ;; ret true) (fun _ => ret false).
End Sdk2.

(** * Reading the effects *)

Definition add_trace (w : World) (l : list io) : World :=
  mkWorld (w_rooms w) (w_ctls w) (w_sessions w) (w_next w) (w_now w) (w_trace w ++ l)%list.

(** What one call of [emitEvent] leaves in the trace: each handler is
    invoked with the event in array order, and a handler that throws is
    followed by the console report and by the next handler. *)
Definition handler_io (X : Ext) (hs : list nat) (ev : SessionEventData) : list io :=
  flat_map (fun h => IOInvoke h ev ::
                       (if x_handler_throws X h ev then [IOConsoleError "Error in event handler:"] else []))
           hs.

Definition handlers_of (event : string) (ctl : Ctl) : list nat :=
  match amap_get String.eqb event (ctl_handlers ctl) with
  | Some l => l
  | None => []
  end.

(** The trace of one emission of [type] with [data] by controller [ctl]. *)
Definition emitted (X : Ext) (type : string) (ctl : Ctl) (ts : string) (data : EventPayload) : list io :=
  handler_io X (handlers_of type ctl) (mkEvent type (ctl_session ctl) ts data).

(** The transport call of [disconnect] on controller [ctl], if it has a room. *)
Definition teardown (X : Ext) (ctl : Ctl) : list io :=
  match ctl_room ctl with
  | Some rid => [IORoomDisconnect rid (x_room_disconnect X rid)]
  | None => []
  end.

(** Successive [on(event, h)] for the handlers [hs]. *)
Fixpoint on_all (c : nat) (event : string) (hs : list nat) : M unit :=
  match hs with
  | [] => ret tt
  | h :: t => on c event h ;; on_all c event t
  end.

(** ** [emitEvent] with handlers that act on the controller

    [forEach_handlers] above takes the handler list once, and its handlers
    only record their call and may throw.  [handlers.forEach] in
    [emitEvent] runs over the live array, the one [off()] splices: it
    fixes the length when it starts and, at each index below that length,
    calls the element the array holds there at that moment, if any.  Here a
    handler is any program: [H h ev] is what handler [h] does when it is
    called with [ev] (it may call [on] or [off] on the controller, or
    throw). *)
Section Reentrant.
Variable H : nat -> SessionEventData -> M unit.

(** [handlers.forEach(handler => { try { handler(eventData) } catch ... })]
    from index [k], with [fuel] indices left below the starting length. *)
Fixpoint forEach_live (c : nat) (type : string) (k fuel : nat) (ev : SessionEventData) : M unit :=
  match fuel with
  | O => ret tt
  | S f =>
      ctl <- get_ctl c ;;
      (match nth_error (handlers_of type ctl) k with
       | Some h => catch (H h ev) (fun _ => tell (IOConsoleError "Error in event handler:"))
       | None => ret tt
       end) ;;
      forEach_live c type (S k) f ev
  end.

(** [emitEvent(type, data)] *)
Definition emitEvent_live (c : nat) (type : string) (data : EventPayload) : M unit :=
  ctl <- get_ctl c ;;
  match amap_get String.eqb type (ctl_handlers ctl) with
  | None => ret tt
  | Some handlers =>
      ts <- now ;;
      forEach_live c type 0 (length handlers) (mkEvent type (ctl_session ctl) ts data)
  end.
End Reentrant.

(** The handlers of [forEach_handlers]: called, they may throw. *)
Definition plain_handler (X : Ext) (h : nat) (ev : SessionEventData) : M unit :=
  tell (IOInvoke h ev) ;;
  if x_handler_throws X h ev then throw ExnValue else ret tt.

(** Handler [h1] unregisters itself on its first call, as in
    [const h1 = (e) => { session.off(type, h1); ... }]; the others only
    record their call. *)
Definition self_removing (c : nat) (type : string) (h1 : nat) (h : nat) (ev : SessionEventData) : M unit :=
  tell (IOInvoke h ev) ;;
  if Nat.eqb h h1 then off c type h1 else ret tt.

(** * Concrete inputs *)

Definition sess0 : AvatarSession :=
  mkAvatarSession "s1" "s1" "room-s1" (Some "tok") (Some "wss://x") "2026-10-18T01:00:00.000Z".

(** A controller for [sess0], never connected, with handlers 1 and 2 on
    [session.ended]. *)
Definition ctl0 : Ctl := mkCtl None sess0 [(SESSION_ENDED, [1; 2])].

Definition w0 : World := mkWorld [] [(0, ctl0)] [("s1", 0)] 1 "2026-10-18T00:00:00.000Z" [].

(** [JSON.parse] on the few texts used below: ["null"] and ["42"] parse,
    the empty text and plain words are syntax errors. *)
Definition toy_parse (s : string) : option json :=
  if String.eqb s "null" then Some JNull
  else if String.eqb s "42" then Some (JNum 42)
  else None.

(** The SyntaxError of [JSON.parse] on a text it refuses. *)
Definition toy_json_error (t : string) : exn :=
  ExnError "SyntaxError" (if String.eqb t "" then "Unexpected end of JSON input"
                          else "Unexpected token in JSON: " ++ t).

(** A host: the network is down, handler 1 throws, the transport accepts
    connections and sends, and its [disconnect] promise rejects. *)
Definition ext0 : Ext :=
  mkExt (fun _ _ => FetchRejected (ExnError "TypeError" "Failed to fetch"))
        toy_parse
        toy_json_error
        (fun _ => "{}")
        (fun _ => [])
        (fun _ => "garbage")
        (fun h _ => Nat.eqb h 1)
        (fun _ _ _ => ConnOk)
        (fun _ => PRejected (ExnError "Error" "transport closed"))
        (fun _ _ => PResolved).

(** Same host, but only the transport [disconnect] of room 11 rejects. *)
Definition ext_dc : Ext :=
  mkExt (fun _ _ => FetchRejected (ExnError "TypeError" "Failed to fetch"))
        toy_parse
        toy_json_error
        (fun _ => "{}")
        (fun _ => [])
        (fun _ => "garbage")
        (fun h _ => Nat.eqb h 1)
        (fun _ _ _ => ConnOk)
        (fun rid => if Nat.eqb rid 11 then PRejected (ExnError "Error" "transport closed") else PResolved)
        (fun _ _ => PResolved).

Definition sess_of (id : string) : AvatarSession :=
  mkAvatarSession id id ("room-" ++ id) (Some "tok") (Some "wss://x") "2026-10-18T01:00:00.000Z".

Definition live_listeners (c : nat) : list Listener :=
  [LTrackSubscribed c; LDataReceived c; LDisconnected c; LQualityChanged c].

(** Three registered controllers, each connected to a room of its own;
    the second has handler 1 on [session.ended]. *)
Definition w3 : World :=
  mkWorld [(10, mkRoom RSConnected (live_listeners 0));
           (11, mkRoom RSConnected (live_listeners 1));
           (12, mkRoom RSConnected (live_listeners 2))]
          [(0, mkCtl (Some 10) (sess_of "a") []);
           (1, mkCtl (Some 11) (sess_of "b") [(SESSION_ENDED, [1])]);
           (2, mkCtl (Some 12) (sess_of "c") [])]
          [("a", 0); ("b", 1); ("c", 2)] 13 "2026-10-18T00:00:00.000Z" [].

(** Same host, but the transport refuses to send. *)
Definition ext1 : Ext :=
  mkExt (fun _ _ => FetchRejected (ExnError "TypeError" "Failed to fetch"))
        toy_parse
        toy_json_error
        (fun _ => "{}")
        (fun _ => [])
        (fun _ => "garbage")
        (fun h _ => Nat.eqb h 1)
        (fun _ _ _ => ConnOk)
        (fun _ => PResolved)
        (fun _ _ => PRejected (ExnError "Error" "room disconnected")).

(** Same host, but the transport refuses the connection and leaves the room
    disconnected. *)
Definition ext2 : Ext :=
  mkExt (fun _ _ => FetchRejected (ExnError "TypeError" "Failed to fetch"))
        toy_parse
        toy_json_error
        (fun _ => "{}")
        (fun _ => [])
        (fun _ => "garbage")
        (fun h _ => Nat.eqb h 1)
        (fun _ _ _ => ConnFail (ExnError "Error" "could not establish signal connection") RSDisconnected)
        (fun _ => PResolved)
        (fun _ _ => PResolved).

(** The bytes [sendMessage] publishes for [message]. *)
Definition chat_bytes (X : Ext) (message : string) : list Byte.byte :=
  x_text_encode X (x_json_stringify X (JObj [("type", JStr MESSAGE_CHAT); ("text", JStr message)])).

(** The [type] property of a decoded payload, when it has one. *)
Definition discriminator (d : json) : option json :=
  match d with
  | JObj kvs => assoc_last "type" kvs
  | _ => None
  end.

Definition known_type (v : option json) : bool :=
  js_str_eq v MESSAGE_STATUS || js_str_eq v MESSAGE_RESPONSE || js_str_eq v MESSAGE_ERROR.

Definition set_room_none (x : Ctl) : Ctl := set_room x None.

Definition api0 : APIClient := mkAPIClient "https://api.soulcypher.ai" "key-123".

(** A host whose gateway answers every call with HTTP 429 and [body]. *)
Definition ext_http (body : string) : Ext :=
  mkExt (fun _ _ => FetchResponse (mkResponse 429 (Ok body)))
        toy_parse
        toy_json_error
        (fun _ => "{}")
        (fun _ => [])
        (fun _ => "garbage")
        (fun h _ => Nat.eqb h 1)
        (fun _ _ _ => ConnOk)
        (fun _ => PResolved)
        (fun _ _ => PResolved).


(** Counts the deliveries of [session.ended] to handler [h] in a trace. *)
Definition ended_deliveries (h : nat) (l : list io) : nat :=
  length (filter (fun e => match e with
                           | IOInvoke h' ev => Nat.eqb h h' && String.eqb (ev_type ev) SESSION_ENDED
                           | _ => false
                           end) l).



(** The domain event a decoded data-channel object [kvs] from [participant]
    stands for, read off its [type] discriminator. *)
Definition avatar_message (kvs : list (string * json)) (participant : nat)
  : option (string * EventPayload) :=
  match assoc_last "type" kvs with
  | Some (JStr t) =>
      if String.eqb t MESSAGE_STATUS then
        Some (AVATAR_STATUS, PStatus (assoc_last "status" kvs) (assoc_last "text" kvs) participant)
      else if String.eqb t MESSAGE_RESPONSE then
        Some (AVATAR_RESPONSE, PText (assoc_last "text" kvs) participant)
      else if String.eqb t MESSAGE_ERROR then
        Some (AVATAR_ERROR, PText (assoc_last "text" kvs) participant)
      else None
  | _ => None
  end.

(** A host whose gateway answers every call with [status] and [body],
    whose [JSON.parse] reads [body] as [parsed], and whose data channel
    decodes every payload to [body]. *)
Definition ext_gw (status : Z) (body : string) (parsed : option json) : Ext :=
  mkExt (fun _ _ => FetchResponse (mkResponse status (Ok body)))
        (fun t => if String.eqb t body then parsed else None)
        toy_json_error
        (fun _ => "{}")
        (fun _ => [])
        (fun _ => body)
        (fun h _ => Nat.eqb h 1)
        (fun _ _ _ => ConnOk)
        (fun _ => PResolved)
        (fun _ _ => PResolved).

(** A world whose registry maps ["s1"] to controller 0, which holds the
    connected room 5. *)
Definition w1 : World :=
  mkWorld [(5, mkRoom RSConnected [])] [(0, set_room ctl0 (Some 5))] [("s1", 0)] 6
          "2026-10-18T00:00:00.000Z" [].

(** Controller 0 with handler 3 registered twice on [avatar.response],
    around handler 1. *)
Definition w_dup : World :=
  mkWorld [] [(0, mkCtl None sess0 [(AVATAR_RESPONSE, [3; 1; 3])])] [] 1 "2026-10-18T00:00:00.000Z" [].

(** * Facts about the monad and the maps *)

Lemma add_trace_app w l1 l2 : add_trace (add_trace w l1) l2 = add_trace w (l1 ++ l2)%list.
Proof. destruct w; unfold add_trace; simpl; now rewrite app_assoc. Qed.

Lemma add_trace_nil w : add_trace w [] = w.
Proof. destruct w; unfold add_trace; simpl; now rewrite app_nil_r. Qed.

Section AMapFacts.
Context {K V : Type} (eqb : K -> K -> bool) (eqb_iff : forall a b, eqb a b = true <-> a = b).

Lemma eqb_refl' k : eqb k k = true.
Proof. now apply eqb_iff. Qed.

Lemma eqb_neq' a b : a <> b -> eqb a b = false.
Proof. intros H; destruct (eqb a b) eqn:E; [apply eqb_iff in E; congruence | reflexivity]. Qed.

Lemma amap_get_set_eq k (v : V) m : amap_get eqb k (amap_set eqb k v m) = Some v.
Proof.
  induction m as [|[k' v'] t IH]; simpl.
  - now rewrite eqb_refl'.
  - destruct (eqb k k') eqn:E; simpl; [now rewrite E | now rewrite E].
Qed.

Lemma amap_get_set_neq k k' (v : V) m :
  k' <> k -> amap_get eqb k' (amap_set eqb k v m) = amap_get eqb k' m.
Proof.
  intros Hne; induction m as [|[k0 v0] t IH]; simpl.
  - now rewrite (eqb_neq' _ _ Hne).
  - destruct (eqb k k0) eqn:E; simpl.
    + apply eqb_iff in E; subst k0. now rewrite (eqb_neq' _ _ Hne).
    + destruct (eqb k' k0); [reflexivity | exact IH].
Qed.

Lemma amap_set_same k (v : V) m : amap_get eqb k m = Some v -> amap_set eqb k v m = m.
Proof.
  induction m as [|[k0 v0] t IH]; simpl; [discriminate|].
  destruct (eqb k k0) eqn:E; [intros H; injection H as ->; reflexivity|].
  intros H; now rewrite IH.
Qed.
Lemma amap_set_set k (v1 v2 : V) m : amap_set eqb k v2 (amap_set eqb k v1 m) = amap_set eqb k v2 m.
Proof.
  induction m as [|[k0 v0] t IH]; simpl.
  - now rewrite eqb_refl'.
  - destruct (eqb k k0) eqn:E; simpl; rewrite E; [reflexivity | now rewrite IH].
Qed.

Lemma amap_set_new k (v : V) m : amap_get eqb k m = None -> amap_set eqb k v m = (m ++ [(k, v)])%list.
Proof.
  induction m as [|[k0 v0] t IH]; simpl; [reflexivity|].
  destruct (eqb k k0); [discriminate | intros H; now rewrite IH].
Qed.

Lemma amap_set_length k (v : V) m : length (amap_set eqb k v m) = length m \/ amap_get eqb k m = None.
Proof.
  induction m as [|[k0 v0] t IH]; simpl; [now right|].
  destruct (eqb k k0); simpl; [now left|].
  destruct IH as [-> | ->]; [now left | now right].
Qed.
End AMapFacts.

Lemma nat_eqb_iff a b : Nat.eqb a b = true <-> a = b.
Proof. apply Nat.eqb_eq. Qed.
Lemma string_eqb_iff a b : String.eqb a b = true <-> a = b.
Proof. apply String.eqb_eq. Qed.

Lemma forEach_handlers_spec X hs ev w :
  forEach_handlers X hs ev w = (Ok tt, add_trace w (handler_io X hs ev)).
Proof.
  revert w; induction hs as [|h t IH]; intros w; simpl.
  - now rewrite add_trace_nil.
  - unfold bind, catch, tell; simpl.
    destruct (x_handler_throws X h ev); simpl.
    + fold (add_trace w [IOInvoke h ev]).
      change (mkWorld _ _ _ _ _ _) with (add_trace (add_trace w [IOInvoke h ev]) [IOConsoleError "Error in event handler:"]).
      rewrite IH, !add_trace_app. reflexivity.
    + fold (add_trace w [IOInvoke h ev]). rewrite IH, add_trace_app. reflexivity.
Qed.

Lemma emitEvent_spec X c ctl type data w :
  amap_get Nat.eqb c (w_ctls w) = Some ctl ->
  emitEvent X c type data w = (Ok tt, add_trace w (emitted X type ctl (w_now w) data)).
Proof.
  intros Hc; unfold emitEvent, emitted, handlers_of, bind, get_ctl; rewrite Hc.
  destruct (amap_get String.eqb type (ctl_handlers ctl)); simpl.
  - apply forEach_handlers_spec.
  - now rewrite add_trace_nil.
Qed.

Lemma get_ctl_add_trace w l : w_ctls (add_trace w l) = w_ctls w.
Proof. reflexivity. Qed.

(** [disconnect] never throws: it tears down the room if there is one,
    forgets it, and emits [session.ended] once. *)
Lemma disconnect_spec X w c ctl :
  amap_get Nat.eqb c (w_ctls w) = Some ctl ->
  disconnect X c w =
    (Ok tt,
     mkWorld (w_rooms w)
             (match ctl_room ctl with
              | Some _ => amap_set Nat.eqb c (set_room ctl None) (w_ctls w)
              | None => w_ctls w
              end)
             (w_sessions w) (w_next w) (w_now w)
             (w_trace w ++ teardown X ctl ++ emitted X SESSION_ENDED ctl (w_now w) (PSession (ctl_session ctl)))%list).
Proof.
  intros Hc; unfold disconnect, teardown, bind, get_ctl at 1; rewrite Hc.
  destruct (ctl_room ctl) as [rid|] eqn:R.
  - unfold room_disconnect, tell, put_ctl, get_ctl; simpl.
    rewrite (amap_get_set_eq _ nat_eqb_iff).
    rewrite (emitEvent_spec X c (set_room ctl None)); simpl.
    + unfold add_trace; simpl. now rewrite <- app_assoc.
    + apply (amap_get_set_eq _ nat_eqb_iff).
  - simpl; unfold get_ctl; rewrite ?Hc.
    rewrite (emitEvent_spec X c ctl) by exact Hc. unfold add_trace; simpl. destruct w; reflexivity.
Qed.

Lemma set_room_none_id ctl : ctl_room ctl = None -> set_room ctl None = ctl.
Proof. destruct ctl; simpl; intros ->; reflexivity. Qed.

Lemma disconnect_ctl_after X w c ctl :
  amap_get Nat.eqb c (w_ctls w) = Some ctl ->
  forall c', amap_get Nat.eqb c' (w_ctls (snd (disconnect X c w))) =
             if Nat.eqb c' c then Some (set_room ctl None) else amap_get Nat.eqb c' (w_ctls w).
Proof.
  intros Hc c'; rewrite (disconnect_spec X w c ctl Hc); simpl.
  destruct (Nat.eqb c' c) eqn:E.
  - apply Nat.eqb_eq in E; subst c'.
    destruct (ctl_room ctl) eqn:R.
    + apply (amap_get_set_eq _ nat_eqb_iff).
    + now rewrite set_room_none_id.
  - apply Nat.eqb_neq in E.
    destruct (ctl_room ctl); [|reflexivity].
    now apply (amap_get_set_neq _ nat_eqb_iff).
Qed.

Lemma on_spec c event h ctl w :
  amap_get Nat.eqb c (w_ctls w) = Some ctl ->
  exists ctl',
    on c event h w =
      (Ok tt, mkWorld (w_rooms w) (amap_set Nat.eqb c ctl' (w_ctls w)) (w_sessions w)
                      (w_next w) (w_now w) (w_trace w)) /\
    handlers_of event ctl' = (handlers_of event ctl ++ [h])%list /\
    ctl_session ctl' = ctl_session ctl.
Proof.
  intros Hc; unfold on, bind, get_ctl; rewrite Hc; simpl.
  eexists; split; [reflexivity|]; split; [|reflexivity].
  unfold handlers_of, map_has; simpl.
  rewrite (amap_get_set_eq _ string_eqb_iff).
  destruct (amap_get String.eqb event (ctl_handlers ctl)) eqn:E.
  - now rewrite E.
  - now rewrite (amap_get_set_eq _ string_eqb_iff).
Qed.

Lemma indexOf_not_in h l : ~ In h l -> indexOf h l = None.
Proof.
  induction l as [|x t IH]; simpl; [reflexivity|].
  intros Hn; destruct (Nat.eqb x h) eqn:E.
  - apply Nat.eqb_eq in E; tauto.
  - rewrite IH; [reflexivity | tauto].
Qed.

Lemma on_all_spec c event hs :
  forall w ctl, amap_get Nat.eqb c (w_ctls w) = Some ctl ->
  exists w' ctl',
    on_all c event hs w = (Ok tt, w') /\
    amap_get Nat.eqb c (w_ctls w') = Some ctl' /\
    handlers_of event ctl' = (handlers_of event ctl ++ hs)%list /\
    ctl_session ctl' = ctl_session ctl /\
    w_now w' = w_now w /\ w_trace w' = w_trace w.
Proof.
  induction hs as [|h t IH]; intros w ctl Hc; simpl.
  - exists w, ctl; now rewrite app_nil_r.
  - destruct (on_spec c event h ctl w Hc) as (ctl1 & Hon & Hh1 & Hs1).
    unfold bind at 1; rewrite Hon.
    edestruct (IH (mkWorld (w_rooms w) (amap_set Nat.eqb c ctl1 (w_ctls w)) (w_sessions w)
                           (w_next w) (w_now w) (w_trace w)) ctl1)
      as (w' & ctl' & Hrun & Hc' & Hh' & Hs' & Hn' & Ht');
      [simpl; apply (amap_get_set_eq _ nat_eqb_iff)|].
    exists w', ctl'; repeat split; auto.
    + rewrite Hh', Hh1, <- app_assoc; reflexivity.
    + congruence.
Qed.

Lemma sendMessage_spec X w c ctl message :
  amap_get Nat.eqb c (w_ctls w) = Some ctl ->
  sendMessage X c message w =
    match ctl_room ctl with
    | None => (Throw (ExnSdk (SessionError "Not connected to session")), w)
    | Some rid =>
        (match x_publish X rid (chat_bytes X message) with
         | PResolved => Ok tt
         | PRejected e => Throw (ExnSdk (SessionError ("Failed to send message: " ++ error_message e)))
         end,
         add_trace w [IOPublishData rid (chat_bytes X message)])
    end.
Proof.
  intros Hc; unfold sendMessage, bind, get_ctl; rewrite Hc.
  destruct (ctl_room ctl) as [rid|]; [|reflexivity].
  unfold catch, tell, chat_bytes; simpl.
  destruct (x_publish X rid _); reflexivity.
Qed.

Ltac run_maps :=
  repeat (simpl; first
    [ rewrite (amap_get_set_eq _ nat_eqb_iff)
    | rewrite (amap_get_set_eq _ string_eqb_iff)
    | rewrite Nat.eqb_refl
    | rewrite String.eqb_refl
    | progress (unfold bind, catch, ret, throw, tell, now, fresh, get_ctl, put_ctl, get_room,
                  put_room, get_sessions, put_sessions)]);
  simpl.


Lemma connect_fail_spec X w c ctl e st :
  amap_get Nat.eqb c (w_ctls w) = Some ctl ->
  truthy_str (s_liveKitToken (ctl_session ctl)) = true ->
  truthy_str (s_liveKitUrl (ctl_session ctl)) = true ->
  x_room_connect X (w_next w) (default_str (s_liveKitUrl (ctl_session ctl)))
                 (default_str (s_liveKitToken (ctl_session ctl))) = ConnFail e st ->
  let '(r, w') := connect X c None None w in
  r = Throw (ExnSdk (ConnectionError ("Failed to connect to LiveKit: " ++ error_message e))) /\
  amap_get Nat.eqb c (w_ctls w') = Some (set_room ctl (Some (w_next w))) /\
  amap_get Nat.eqb (w_next w) (w_rooms w') =
    Some (mkRoom st [LTrackSubscribed c; LDataReceived c; LDisconnected c; LQualityChanged c]).
Proof.
  intros Hc Htok Hurl Hfail.
  unfold connect, bind at 1, get_ctl at 1; rewrite Hc, Htok, Hurl; simpl.
  unfold new_room, setupRoomEventHandlers, add_listener, room_connect, set_room_state.
  run_maps. rewrite Hc. run_maps. rewrite Hfail. run_maps.
  repeat split.
Qed.


Lemma connect_ok_spec X w c ctl :
  amap_get Nat.eqb c (w_ctls w) = Some ctl ->
  truthy_str (s_liveKitToken (ctl_session ctl)) = true ->
  truthy_str (s_liveKitUrl (ctl_session ctl)) = true ->
  x_room_connect X (w_next w) (default_str (s_liveKitUrl (ctl_session ctl)))
                 (default_str (s_liveKitToken (ctl_session ctl))) = ConnOk ->
  connect X c None None w =
    (Ok tt,
     mkWorld (amap_set Nat.eqb (w_next w)
                (mkRoom RSConnected [LTrackSubscribed c; LDataReceived c; LDisconnected c; LQualityChanged c])
                (amap_set Nat.eqb (w_next w)
                   (mkRoom RSDisconnected [LTrackSubscribed c; LDataReceived c; LDisconnected c; LQualityChanged c])
                   (amap_set Nat.eqb (w_next w)
                      (mkRoom RSDisconnected [LTrackSubscribed c; LDataReceived c; LDisconnected c])
                      (amap_set Nat.eqb (w_next w)
                         (mkRoom RSDisconnected [LTrackSubscribed c; LDataReceived c])
                         (amap_set Nat.eqb (w_next w)
                            (mkRoom RSDisconnected [LTrackSubscribed c])
                            (amap_set Nat.eqb (w_next w) (mkRoom RSDisconnected []) (w_rooms w)))))))
             (amap_set Nat.eqb c (set_room ctl (Some (w_next w))) (w_ctls w))
             (w_sessions w) (S (w_next w)) (w_now w)
             (w_trace w ++ [IORoomConnect (w_next w) (default_str (s_liveKitUrl (ctl_session ctl)))
                                          (default_str (s_liveKitToken (ctl_session ctl)))] ++
              emitted X SESSION_STARTED ctl (w_now w) (PSession (ctl_session ctl)))%list).
Proof.
  intros Hc Htok Hurl Hok.
  unfold connect, bind at 1, get_ctl at 1; rewrite Hc, Htok, Hurl; simpl.
  unfold new_room, setupRoomEventHandlers, add_listener, room_connect, set_room_state.
  run_maps. rewrite Hc. run_maps. rewrite Hok. run_maps.
  rewrite (emitEvent_spec X c (set_room ctl (Some (w_next w)))) by (simpl; apply (amap_get_set_eq _ nat_eqb_iff)).
  unfold add_trace; simpl. now rewrite <- app_assoc.
Qed.


Lemma connect_drop_disconnect_trace X w c ctl :
  amap_get Nat.eqb c (w_ctls w) = Some ctl ->
  truthy_str (s_liveKitToken (ctl_session ctl)) = true ->
  truthy_str (s_liveKitUrl (ctl_session ctl)) = true ->
  x_room_connect X (w_next w) (default_str (s_liveKitUrl (ctl_session ctl)))
                 (default_str (s_liveKitToken (ctl_session ctl))) = ConnOk ->
  let '(r, w') := (connect X c None None ;; room_emit X (w_next w) REDisconnected ;; disconnect X c) w in
  r = Ok tt /\
  w_trace w' =
    (w_trace w ++
     [IORoomConnect (w_next w) (default_str (s_liveKitUrl (ctl_session ctl)))
                    (default_str (s_liveKitToken (ctl_session ctl)))] ++
     emitted X SESSION_STARTED ctl (w_now w) (PSession (ctl_session ctl)) ++
     emitted X SESSION_ENDED ctl (w_now w) (PSession (ctl_session ctl)) ++
     [IORoomDisconnect (w_next w) (x_room_disconnect X (w_next w))] ++
     emitted X SESSION_ENDED ctl (w_now w) (PSession (ctl_session ctl)))%list.
Proof.
  intros Hc Htok Hurl Hok.
  unfold bind at 1; rewrite (connect_ok_spec X w c ctl Hc Htok Hurl Hok).
  unfold room_emit, set_room_state, run_listeners, run_listener, onDisconnected.
  run_maps.
  rewrite (emitEvent_spec X c (set_room ctl (Some (w_next w))))
    by (simpl; apply (amap_get_set_eq _ nat_eqb_iff)).
  simpl.
  rewrite (disconnect_spec X _ c (set_room ctl (Some (w_next w))))
    by (simpl; apply (amap_get_set_eq _ nat_eqb_iff)).
  simpl. split; [reflexivity|].
  unfold teardown, emitted; simpl. rewrite <- !app_assoc. reflexivity.
Qed.



Lemma call_all_disconnect X (l : list (string * nat)) :
  forall w, (forall k c, In (k, c) l -> exists ctl, amap_get Nat.eqb c (w_ctls w) = Some ctl) ->
  exists w',
    call_all (map (fun kv => disconnect X (snd kv)) l) w = (Ok (map (fun _ => Ok tt) l), w') /\
    w_sessions w' = w_sessions w /\
    (forall c', amap_get Nat.eqb c' (w_ctls w') =
                if existsb (Nat.eqb c') (map snd l)
                then option_map set_room_none (amap_get Nat.eqb c' (w_ctls w))
                else amap_get Nat.eqb c' (w_ctls w)) /\
    (forall c ctl, In c (map snd l) -> amap_get Nat.eqb c (w_ctls w) = Some ctl ->
                   incl (teardown X ctl) (w_trace w')) /\
    (exists sfx, w_trace w' = (w_trace w ++ sfx)%list).
Proof.
  induction l as [|[k c] t IH]; intros w Hwf; simpl.
  - exists w; repeat split; auto.
    + intros c ctl [].
    + exists []; now rewrite app_nil_r.
  - destruct (Hwf k c (or_introl eq_refl)) as [ctl Hc].
    pose proof (disconnect_ctl_after X w c ctl Hc) as Hafter.
    destruct (IH (snd (disconnect X c w))) as (w' & Hrun & Hs' & Hget' & Htr' & sfx' & Hsfx').
    { intros k' c' Hin.
      rewrite Hafter.
      destruct (Nat.eqb c' c); [eauto|].
      exact (Hwf k' c' (or_intror Hin)). }
    exists w'.
    unfold call_async, bind at 1.
    rewrite (disconnect_spec X w c ctl Hc) in Hrun, Hs', Hget', Htr', Hsfx' |- *.
    simpl in Hrun, Hs', Hget', Htr', Hsfx'.
    unfold bind; rewrite Hrun.
    split; [reflexivity|].
    split; [exact Hs'|].
    split; [|split].
    + intros c'. rewrite Hget'.
      pose proof (Hafter c') as Ha. rewrite (disconnect_spec X w c ctl Hc) in Ha; simpl in Ha.
      rewrite Ha.
      destruct (Nat.eqb c' c) eqn:E; simpl.
      * apply Nat.eqb_eq in E; subst c'. rewrite Hc.
        destruct (existsb (Nat.eqb c) (map snd t)); reflexivity.
      * reflexivity.
    + intros c0 ctl0 [<- | Hin] Hc0.
      * rewrite Hc in Hc0; injection Hc0 as <-.
        rewrite Hsfx'. intros e He. apply in_or_app; left.
        apply in_or_app; right. apply in_or_app; left. exact He.
      * pose proof (Hafter c0) as Ha. rewrite (disconnect_spec X w c ctl Hc) in Ha; simpl in Ha.
        destruct (Nat.eqb c0 c) eqn:E.
        -- apply Nat.eqb_eq in E; subst c0. rewrite Hc in Hc0; injection Hc0 as <-.
           rewrite Hsfx'. intros e He. apply in_or_app; left.
           apply in_or_app; right. apply in_or_app; left. exact He.
        -- rewrite Hc0 in Ha. exact (Htr' c0 ctl0 Hin Ha).
    + exists ((teardown X ctl ++ emitted X SESSION_ENDED ctl (w_now w) (PSession (ctl_session ctl))) ++ sfx')%list.
      rewrite Hsfx'. now rewrite <- !app_assoc.
Qed.

Lemma promise_all_ok (l : list (string * nat)) w :
  promise_all (map (fun _ => Ok tt) l) w = (Ok tt, w).
Proof. induction l; simpl; auto. Qed.


Lemma handleErrorResponse_throws X r w :
  exists e, handleErrorResponse X r w = (Throw e, w).
Proof.
  unfold handleErrorResponse, response_text, bind, ret, throw.
  destruct (resp_body r) as [text|e]; [|eauto].
  destruct (x_json_parse X text) as [d|]; unfold get_prop.
  - destruct d; try (eexists; reflexivity);
      unfold ret; simpl; repeat (destruct (Z.eqb _ _)); eexists; reflexivity.
  - unfold ret; simpl; repeat (destruct (Z.eqb _ _)); eexists; reflexivity.
Qed.


Lemma response_json_frame X r w : snd (response_json X r w) = w.
Proof.
  unfold response_json, response_text, bind, ret, throw.
  destruct (resp_body r); [|reflexivity].
  destruct (x_json_parse X a); reflexivity.
Qed.

Lemma request_frame X api endpoint method w :
  snd (request X api endpoint method w) =
    add_trace w [IOFetch (baseUrl api ++ "/v1" ++ endpoint) method (Some (apiKey api))].
Proof.
  unfold request, catch, bind at 1, tell.
  destruct (x_fetch X _ method) as [e|r].
  - simpl. unfold throw. destruct e; reflexivity.
  - unfold bind. destruct (negb (response_ok r)).
    + match goal with |- context [handleErrorResponse X r ?w'] =>
        destruct (handleErrorResponse_throws X r w') as [e He]; rewrite He end.
      unfold throw; destruct e; reflexivity.
    + simpl. apply response_json_frame.
Qed.

Lemma api_getSession_frame X api sid w :
  snd (api_getSession X api sid w) =
    add_trace w [IOFetch (baseUrl api ++ "/v1" ++ "/sessions/" ++ sid) "GET" (Some (apiKey api))].
Proof.
  unfold api_getSession, bind at 1.
  rewrite <- (request_frame X api ("/sessions/" ++ sid) "GET" w).
  destruct (request X api _ "GET" w) as [[j|e] w1]; simpl; [|reflexivity].
  unfold session_of_json; destruct j; reflexivity.
Qed.

Lemma in_sessions_existsb (l : list (string * nat)) k c :
  In (k, c) l -> existsb (Nat.eqb c) (map snd l) = true.
Proof.
  intros Hin; apply existsb_exists; exists c; split; [|apply Nat.eqb_refl].
  apply (in_map snd l (k, c)); exact Hin.
Qed.

(** * The claims *)

(** C4: for every controller and every prior state, [disconnect()] does not
    throw; it tears down the room if the controller has one (one
    [room.disconnect()] call) and forgets it, and it emits [session.ended]
    exactly once: one event, delivered once to each [session.ended]
    handler, and no other event. *)
Theorem disconnect_never_throws_and_ends_once (X : Ext) (w : World) (c : nat) (ctl : Ctl)
  (Hc : amap_get Nat.eqb c (w_ctls w) = Some ctl) :
  let '(r, w') := disconnect X c w in
  r = Ok tt /\
  amap_get Nat.eqb c (w_ctls w') = Some (set_room ctl None) /\
  w_sessions w' = w_sessions w /\
  w_trace w' =
    (w_trace w ++ teardown X ctl ++
     emitted X SESSION_ENDED ctl (w_now w) (PSession (ctl_session ctl)))%list.
Proof.
  pose proof (disconnect_ctl_after X w c ctl Hc c) as Hafter.
  rewrite Nat.eqb_refl in Hafter.
  rewrite (disconnect_spec X w c ctl Hc) in *; simpl in *.
  repeat split; assumption.
Qed.

Lemma disconnect_never_throws_and_ends_once_witness :
  amap_get Nat.eqb 0 (w_ctls w0) = Some ctl0 /\ fst (disconnect ext0 0 w0) = Ok tt.
Proof.
  split; [reflexivity|].
  pose proof (disconnect_never_throws_and_ends_once ext0 w0 0 ctl0 eq_refl) as H.
  destruct (disconnect ext0 0 w0) as [r w']; simpl.
  destruct H as [H _]; exact H.
Defined.

(** For handlers that leave the registrations alone (they only run and may
    throw; [emitEvent_live_plain] relates them to the live array):
    handlers registered with [on] for one event type are invoked in
    registration order (after those already registered), each exactly once;
    a handler that throws is reported on the console, the following handlers
    are still invoked, and the emission returns normally; [off] with a
    handler that is not registered changes nothing. *)
Theorem handlers_registration_order_and_isolation (X : Ext) (w : World) (c : nat) (ctl : Ctl)
  (event : string) (hs : list nat) (data : EventPayload) (h : nat)
  (Hc : amap_get Nat.eqb c (w_ctls w) = Some ctl) :
  (exists w',
     (on_all c event hs ;; emitEvent X c event data) w = (Ok tt, w') /\
     w_trace w' =
       (w_trace w ++ handler_io X (handlers_of event ctl ++ hs)
                       (mkEvent event (ctl_session ctl) (w_now w) data))%list) /\
  (~ In h (handlers_of event ctl) -> off c event h w = (Ok tt, w)).
Proof.
  split.
  - destruct (on_all_spec c event hs w ctl Hc) as (w' & ctl' & Hrun & Hc' & Hh' & Hs' & Hn' & Ht').
    exists (add_trace w' (emitted X event ctl' (w_now w') data)).
    unfold bind at 1; rewrite Hrun, (emitEvent_spec X c ctl') by exact Hc'.
    split; [reflexivity|].
    unfold add_trace, emitted; simpl. now rewrite Hh', Hs', Hn', Ht'.
  - intros Hn; unfold off, bind, get_ctl; rewrite Hc.
    unfold handlers_of in Hn.
    destruct (amap_get String.eqb event (ctl_handlers ctl)) as [l|]; [|reflexivity].
    now rewrite indexOf_not_in.
Qed.

Lemma handlers_registration_order_and_isolation_witness :
  amap_get Nat.eqb 0 (w_ctls w0) = Some ctl0 /\
  off 0 SESSION_ENDED 7 w0 = (Ok tt, w0).
Proof.
  split; [reflexivity|].
  destruct (handlers_registration_order_and_isolation ext0 w0 0 ctl0 SESSION_ENDED [3]
              (PSession sess0) 7 eq_refl) as [_ Hoff].
  apply Hoff; simpl; intuition discriminate.
Defined.

Lemma skipn_nth_error {A} (l : list A) : forall k x,
  nth_error l k = Some x -> skipn k l = x :: skipn (S k) l.
Proof.
  induction l as [|y t IH]; intros [|k] x E; simpl in *; try discriminate.
  - now injection E as ->.
  - now apply IH.
Qed.

(** With handlers that leave the registrations alone, reading the live
    array at each index is the same as walking the list taken at the
    start. *)
Lemma forEach_live_plain X c type ctl ev : forall fuel k w,
  amap_get Nat.eqb c (w_ctls w) = Some ctl ->
  k + fuel = length (handlers_of type ctl) ->
  forEach_live (plain_handler X) c type k fuel ev w =
    (Ok tt, add_trace w (handler_io X (skipn k (handlers_of type ctl)) ev)).
Proof.
  induction fuel as [|f IH]; intros k w Hc Hk.
  - simpl. rewrite skipn_all2 by lia. unfold handler_io; simpl. now rewrite add_trace_nil.
  - cbn [forEach_live]. unfold bind at 1, get_ctl at 1; rewrite Hc.
    destruct (nth_error (handlers_of type ctl) k) as [h|] eqn:E.
    2: { apply nth_error_None in E; lia. }
    rewrite (skipn_nth_error _ _ _ E).
    unfold bind, catch, plain_handler, tell, throw, ret.
    destruct (x_handler_throws X h ev) eqn:Ht; simpl.
    + rewrite IH by (simpl; first [exact Hc | lia]).
      unfold add_trace, handler_io; simpl; rewrite Ht, <- !app_assoc; reflexivity.
    + rewrite IH by (simpl; first [exact Hc | lia]).
      unfold add_trace, handler_io; simpl; rewrite Ht, <- !app_assoc; reflexivity.
Qed.

Lemma emitEvent_live_plain X c type data w :
  emitEvent_live (plain_handler X) c type data w = emitEvent X c type data w.
Proof.
  unfold emitEvent_live, emitEvent, bind, get_ctl.
  destruct (amap_get Nat.eqb c (w_ctls w)) as [ctl|] eqn:Hc; [|reflexivity].
  destruct (amap_get String.eqb type (ctl_handlers ctl)) as [hs|] eqn:Hh; [|reflexivity].
  unfold now.
  assert (Hl : handlers_of type ctl = hs) by (unfold handlers_of; rewrite Hh; reflexivity).
  rewrite (forEach_live_plain X c type ctl) by (simpl; first [exact Hc | rewrite Hl; reflexivity]).
  rewrite forEach_handlers_spec, Hl; reflexivity.
Qed.

(** C6 (as stated it fails): [emitEvent] runs over the live handler array.
    When the first of two handlers registered for [type] calls
    [off(type, itself)] while it runs, the array shrinks under [forEach]:
    the second handler moves to index 0, [forEach] goes on at index 1, and
    the second handler is never invoked, although it is still registered
    and the emission returns normally. *)
Theorem self_removing_handler_skips_next (c : nat) (type : string) (ctl : Ctl) (w : World)
  (h1 h2 : nat) (data : EventPayload)
  (Hc : amap_get Nat.eqb c (w_ctls w) = Some ctl)
  (Hh : amap_get String.eqb type (ctl_handlers ctl) = Some [h1; h2]) :
  emitEvent_live (self_removing c type h1) c type data w =
    (Ok tt,
     mkWorld (w_rooms w)
             (amap_set Nat.eqb c (set_handlers ctl (amap_set String.eqb type [h2] (ctl_handlers ctl)))
                       (w_ctls w))
             (w_sessions w) (w_next w) (w_now w)
             (w_trace w ++ [IOInvoke h1 (mkEvent type (ctl_session ctl) (w_now w) data)])%list).
Proof.
  unfold emitEvent_live, bind at 1, get_ctl at 1; rewrite Hc, Hh.
  cbn [length forEach_live].
  unfold handlers_of, self_removing, off.
  run_maps. rewrite Hc, Hh. run_maps. rewrite Hc, Hh. run_maps.
  reflexivity.
Qed.

Lemma self_removing_handler_skips_next_witness :
  (amap_get Nat.eqb 0 (w_ctls w0) = Some ctl0 /\
   amap_get String.eqb SESSION_ENDED (ctl_handlers ctl0) = Some [1; 2]) /\
  emitEvent_live (self_removing 0 SESSION_ENDED 1) 0 SESSION_ENDED (PSession sess0) w0 =
    (Ok tt,
     mkWorld [] [(0, mkCtl None sess0 [(SESSION_ENDED, [2])])] [("s1", 0)] 1 (w_now w0)
             [IOInvoke 1 (mkEvent SESSION_ENDED sess0 (w_now w0) (PSession sess0))]).
Proof.
  split; [split; reflexivity|].
  exact (self_removing_handler_skips_next 0 SESSION_ENDED ctl0 w0 1 2 (PSession sess0) eq_refl eq_refl).
Defined.

(** C2 (as stated it fails): when the transport's [connect] rejects, the
    controller reports a connection error but keeps the failed room object,
    with the four listeners of [setupRoomEventHandlers], instead of
    returning to its initial state: [this.room] is never reset in the
    [catch].  As a result a later [sendMessage] is not refused as
    not-connected but publishes on the dead room. *)
Theorem connect_failure_retains_room (X : Ext) (w : World) (c : nat) (ctl : Ctl)
  (e : exn) (st : RoomState) (message : string)
  (Hc : amap_get Nat.eqb c (w_ctls w) = Some ctl)
  (Htok : truthy_str (s_liveKitToken (ctl_session ctl)) = true)
  (Hurl : truthy_str (s_liveKitUrl (ctl_session ctl)) = true)
  (Hfail : x_room_connect X (w_next w) (default_str (s_liveKitUrl (ctl_session ctl)))
             (default_str (s_liveKitToken (ctl_session ctl))) = ConnFail e st) :
  let '(r, w') := connect X c None None w in
  r = Throw (ExnSdk (ConnectionError ("Failed to connect to LiveKit: " ++ error_message e))) /\
  amap_get Nat.eqb c (w_ctls w') = Some (set_room ctl (Some (w_next w))) /\
  amap_get Nat.eqb (w_next w) (w_rooms w') =
    Some (mkRoom st [LTrackSubscribed c; LDataReceived c; LDisconnected c; LQualityChanged c]) /\
  fst (sendMessage X c message w') <> Throw (ExnSdk (SessionError "Not connected to session")) /\
  In (IOPublishData (w_next w) (chat_bytes X message)) (w_trace (snd (sendMessage X c message w'))).
Proof.
  pose proof (connect_fail_spec X w c ctl e st Hc Htok Hurl Hfail) as H.
  destruct (connect X c None None w) as [r w'].
  destruct H as (Hr & Hc' & Hroom).
  repeat split; try assumption.
  - rewrite (sendMessage_spec X w' c _ message Hc'); simpl.
    destruct (x_publish X (w_next w) (chat_bytes X message)); simpl; discriminate.
  - rewrite (sendMessage_spec X w' c _ message Hc'); simpl.
    apply in_or_app; right; left; reflexivity.
Qed.

Lemma connect_failure_retains_room_witness :
  (amap_get Nat.eqb 0 (w_ctls w0) = Some ctl0 /\
   truthy_str (s_liveKitToken (ctl_session ctl0)) = true /\
   truthy_str (s_liveKitUrl (ctl_session ctl0)) = true /\
   x_room_connect ext2 1 "wss://x" "tok" =
     ConnFail (ExnError "Error" "could not establish signal connection") RSDisconnected) /\
  fst (sendMessage ext2 0 "hi" (snd (connect ext2 0 None None w0)))
    <> Throw (ExnSdk (SessionError "Not connected to session")).
Proof.
  split; [repeat split; reflexivity|].
  pose proof (connect_failure_retains_room ext2 w0 0 ctl0
                (ExnError "Error" "could not establish signal connection") RSDisconnected "hi"
                eq_refl eq_refl eq_refl eq_refl) as H.
  destruct (connect ext2 0 None None w0) as [r w'].
  destruct H as (_ & _ & _ & Hs & _); exact Hs.
Defined.

(** C5: a data-channel payload that does not decode as JSON, or whose
    [type] is none of [status], [response], [error] (a payload decoding to
    [null] included), emits no event and lets no exception escape: the
    listener either does nothing or only logs a console warning. *)
Theorem dropped_payloads_emit_nothing (X : Ext) (w : World) (c : nat)
  (payload : list Byte.byte) (participant : nat)
  (Hdrop : match x_json_parse X (x_text_decode X payload) with
           | None => True
           | Some d => known_type (discriminator d) = false
           end) :
  onDataReceived X c payload participant w = (Ok tt, w) \/
  onDataReceived X c payload participant w =
    (Ok tt, add_trace w [IOConsoleWarn "Failed to parse avatar message:"]).
Proof.
  unfold onDataReceived, catch.
  destruct (x_json_parse X (x_text_decode X payload)) as [d|]; [|right; reflexivity].
  destruct d as [| b | n | str | xs | kvs]; simpl in Hdrop |- *;
    try (left; reflexivity); [right; reflexivity|].
  unfold known_type in Hdrop.
  apply orb_false_iff in Hdrop as [Hdrop He].
  apply orb_false_iff in Hdrop as [Hs Hr].
  left; unfold bind, ret; simpl.
  rewrite Hs, Hr, He. reflexivity.
Qed.

Lemma dropped_payloads_emit_nothing_witness :
  x_json_parse ext0 (x_text_decode ext0 [Byte.x00]) = None /\
  fst (onDataReceived ext0 0 [Byte.x00] 9 w0) = Ok tt.
Proof.
  split; [reflexivity|].
  destruct (dropped_payloads_emit_nothing ext0 w0 0 [Byte.x00] 9 I) as [H | H];
    rewrite H; reflexivity.
Defined.

(** [sendMessage] refuses with the not-connected error,
    performing no I/O and changing nothing, exactly when the controller
    holds no room (never connected, or after [disconnect()]).  Otherwise it
    publishes the chat envelope on the room whatever the room's connection
    state; a failed send is reported as a ["Failed to send message: ..."]
    session error; in both cases only the trace changes, so the connection
    state is left as it was. *)
Theorem sendMessage_guard_is_room_presence (X : Ext) (w : World) (c : nat) (ctl : Ctl)
  (message : string) (Hc : amap_get Nat.eqb c (w_ctls w) = Some ctl) :
  (ctl_room ctl = None ->
   sendMessage X c message w = (Throw (ExnSdk (SessionError "Not connected to session")), w)) /\
  (forall rid, ctl_room ctl = Some rid ->
   sendMessage X c message w =
     (match x_publish X rid (chat_bytes X message) with
      | PResolved => Ok tt
      | PRejected e => Throw (ExnSdk (SessionError ("Failed to send message: " ++ error_message e)))
      end,
      add_trace w [IOPublishData rid (chat_bytes X message)])).
Proof.
  rewrite (sendMessage_spec X w c ctl message Hc).
  split; [intros -> | intros rid ->]; reflexivity.
Qed.

Lemma sendMessage_guard_is_room_presence_witness :
  amap_get Nat.eqb 0 (w_ctls w0) = Some ctl0 /\
  sendMessage ext0 0 "hi" w0 = (Throw (ExnSdk (SessionError "Not connected to session")), w0).
Proof.
  split; [reflexivity|].
  apply (proj1 (sendMessage_guard_is_room_presence ext0 w0 0 ctl0 "hi" eq_refl)).
  reflexivity.
Defined.

(** C3 (as stated it fails): the guard of [sendMessage] is [!this.room],
    not the connection state.  After a successful [connect()] the transport's
    [Disconnected] notification leaves the room referenced (only
    [disconnect()] clears [this.room]): [getStatus()] now reads
    ["disconnected"], yet [sendMessage] is not refused as not-connected but
    publishes the chat envelope on the dead room, whatever the transport then
    does with it. *)
Theorem sendMessage_publishes_after_transport_drop (X : Ext) (w : World) (c : nat) (ctl : Ctl)
  (message : string)
  (Hc : amap_get Nat.eqb c (w_ctls w) = Some ctl)
  (Htok : truthy_str (s_liveKitToken (ctl_session ctl)) = true)
  (Hurl : truthy_str (s_liveKitUrl (ctl_session ctl)) = true)
  (Hok : x_room_connect X (w_next w) (default_str (s_liveKitUrl (ctl_session ctl)))
                        (default_str (s_liveKitToken (ctl_session ctl))) = ConnOk) :
  let w1 := snd ((connect X c None None ;; room_emit X (w_next w) REDisconnected) w) in
  fst (getStatus c w1) = Ok "disconnected" /\
  sendMessage X c message w1 =
    (match x_publish X (w_next w) (chat_bytes X message) with
     | PResolved => Ok tt
     | PRejected e => Throw (ExnSdk (SessionError ("Failed to send message: " ++ error_message e)))
     end,
     add_trace w1 [IOPublishData (w_next w) (chat_bytes X message)]).
Proof.
  intros w1.
  assert (H1 : amap_get Nat.eqb c (w_ctls w1) = Some (set_room ctl (Some (w_next w))) /\
               exists ls, amap_get Nat.eqb (w_next w) (w_rooms w1) = Some (mkRoom RSDisconnected ls)).
  { unfold w1, bind; rewrite (connect_ok_spec X w c ctl Hc Htok Hurl Hok).
    unfold room_emit, set_room_state, run_listeners, run_listener, onDisconnected.
    run_maps.
    rewrite (emitEvent_spec X c (set_room ctl (Some (w_next w))))
      by (simpl; apply (amap_get_set_eq _ nat_eqb_iff)).
    simpl; split; [apply (amap_get_set_eq _ nat_eqb_iff)|].
    eexists; apply (amap_get_set_eq _ nat_eqb_iff). }
  destruct H1 as [Hc1 [ls Hr1]]; split.
  - unfold getStatus, bind, get_ctl, get_room, ret; rewrite Hc1; simpl; rewrite Hr1; reflexivity.
  - rewrite (sendMessage_spec X w1 c _ message Hc1); reflexivity.
Qed.

Lemma sendMessage_publishes_after_transport_drop_witness :
  (amap_get Nat.eqb 0 (w_ctls w0) = Some ctl0 /\
   truthy_str (s_liveKitToken (ctl_session ctl0)) = true /\
   truthy_str (s_liveKitUrl (ctl_session ctl0)) = true /\
   x_room_connect ext1 1 "wss://x" "tok" = ConnOk) /\
  let w1 := snd ((connect ext1 0 None None ;; room_emit ext1 1 REDisconnected) w0) in
  fst (getStatus 0 w1) = Ok "disconnected" /\
  sendMessage ext1 0 "hi" w1 =
    (Throw (ExnSdk (SessionError "Failed to send message: room disconnected")),
     add_trace w1 [IOPublishData 1 (chat_bytes ext1 "hi")]).
Proof.
  split; [repeat split|].
  exact (sendMessage_publishes_after_transport_drop ext1 w0 0 ctl0 "hi" eq_refl eq_refl eq_refl eq_refl).
Defined.

(** C10: [session.ended] is not emitted at most once per controller.  After
    a successful [connect], the transport's [Disconnected] notification
    emits [session.ended] through the listener of [setupRoomEventHandlers]
    (the room stays referenced), and a later [disconnect()] tears the room
    down and emits [session.ended] a second time. *)
Theorem session_ended_emitted_twice (X : Ext) (w : World) (c : nat) (ctl : Ctl)
  (Hc : amap_get Nat.eqb c (w_ctls w) = Some ctl)
  (Htok : truthy_str (s_liveKitToken (ctl_session ctl)) = true)
  (Hurl : truthy_str (s_liveKitUrl (ctl_session ctl)) = true)
  (Hok : x_room_connect X (w_next w) (default_str (s_liveKitUrl (ctl_session ctl)))
           (default_str (s_liveKitToken (ctl_session ctl))) = ConnOk) :
  let '(r, w') := (connect X c None None ;; room_emit X (w_next w) REDisconnected ;; disconnect X c) w in
  r = Ok tt /\
  w_trace w' =
    (w_trace w ++
     [IORoomConnect (w_next w) (default_str (s_liveKitUrl (ctl_session ctl)))
                    (default_str (s_liveKitToken (ctl_session ctl)))] ++
     emitted X SESSION_STARTED ctl (w_now w) (PSession (ctl_session ctl)) ++
     emitted X SESSION_ENDED ctl (w_now w) (PSession (ctl_session ctl)) ++
     [IORoomDisconnect (w_next w) (x_room_disconnect X (w_next w))] ++
     emitted X SESSION_ENDED ctl (w_now w) (PSession (ctl_session ctl)))%list.
Proof. exact (connect_drop_disconnect_trace X w c ctl Hc Htok Hurl Hok). Qed.

Lemma session_ended_emitted_twice_witness :
  (amap_get Nat.eqb 0 (w_ctls w0) = Some ctl0 /\
   truthy_str (s_liveKitToken (ctl_session ctl0)) = true /\
   truthy_str (s_liveKitUrl (ctl_session ctl0)) = true /\
   x_room_connect ext0 1 "wss://x" "tok" = ConnOk) /\
  ended_deliveries 2
    (w_trace (snd ((connect ext0 0 None None ;; room_emit ext0 (w_next w0) REDisconnected ;;
                    disconnect ext0 0) w0)))
  = 2.
Proof.
  split; [repeat split; reflexivity|].
  pose proof (session_ended_emitted_twice ext0 w0 0 ctl0 eq_refl eq_refl eq_refl eq_refl) as H.
  destruct ((connect ext0 0 None None ;; room_emit ext0 (w_next w0) REDisconnected ;;
             disconnect ext0 0) w0) as [r w'].
  destruct H as [_ Ht]; simpl; rewrite Ht; vm_compute; reflexivity.
Defined.

(** C1: for every registry whose entries are live controllers, [cleanup()]
    calls [disconnect()] on every registered controller, and none of these
    calls can fail: the transport's own [disconnect] promise is never
    awaited, so a rejection there (recorded in the trace) reaches neither
    the controller nor [Promise.all].  Every registered controller ends with
    its room torn down and forgotten, [cleanup()] resolves, and the registry
    is empty afterwards. *)
Theorem cleanup_disconnects_all_and_clears (X : Ext) (w : World)
  (Hwf : forall k c, In (k, c) (w_sessions w) -> exists ctl, amap_get Nat.eqb c (w_ctls w) = Some ctl) :
  let '(r, w') := cleanup X w in
  r = Ok tt /\
  w_sessions w' = [] /\
  (forall k c ctl, In (k, c) (w_sessions w) -> amap_get Nat.eqb c (w_ctls w) = Some ctl ->
     amap_get Nat.eqb c (w_ctls w') = Some (set_room ctl None) /\
     incl (teardown X ctl) (w_trace w')).
Proof.
  destruct (call_all_disconnect X (w_sessions w) w Hwf) as (w' & Hrun & Hs' & Hget' & Htr' & _).
  unfold cleanup, bind at 1, get_sessions.
  unfold bind at 1; rewrite Hrun.
  unfold bind; rewrite promise_all_ok; simpl.
  split; [reflexivity|]; split; [reflexivity|].
  intros k c ctl Hin Hc; split.
  - rewrite Hget', (in_sessions_existsb _ k c Hin), Hc; reflexivity.
  - apply (Htr' c ctl); [apply (in_map snd _ (k, c) Hin) | exact Hc].
Qed.

Lemma cleanup_disconnects_all_and_clears_witness :
  (forall k c, In (k, c) (w_sessions w3) -> exists ctl, amap_get Nat.eqb c (w_ctls w3) = Some ctl) /\
  let '(r, w') := cleanup ext_dc w3 in
  r = Ok tt /\
  w_sessions w' = [] /\
  amap_get Nat.eqb 0 (w_ctls w') = Some (mkCtl None (sess_of "a") []) /\
  amap_get Nat.eqb 1 (w_ctls w') = Some (mkCtl None (sess_of "b") [(SESSION_ENDED, [1])]) /\
  amap_get Nat.eqb 2 (w_ctls w') = Some (mkCtl None (sess_of "c") []) /\
  In (IORoomDisconnect 10 PResolved) (w_trace w') /\
  In (IORoomDisconnect 11 (PRejected (ExnError "Error" "transport closed"))) (w_trace w') /\
  In (IORoomDisconnect 12 PResolved) (w_trace w').
Proof.
  assert (Hwf : forall k c, In (k, c) (w_sessions w3) ->
                exists ctl, amap_get Nat.eqb c (w_ctls w3) = Some ctl).
  { simpl; intros k c [H | [H | [H | []]]]; injection H as <- <-; eexists; reflexivity. }
  split; [exact Hwf|].
  pose proof (cleanup_disconnects_all_and_clears ext_dc w3 Hwf) as H.
  destruct (cleanup ext_dc w3) as [r w'].
  destruct H as (Hr & Hs & Hall).
  destruct (Hall "a" 0 (mkCtl (Some 10) (sess_of "a") []) (or_introl eq_refl) eq_refl) as [Ha Ta].
  destruct (Hall "b" 1 (mkCtl (Some 11) (sess_of "b") [(SESSION_ENDED, [1])])
              (or_intror (or_introl eq_refl)) eq_refl) as [Hb Tb].
  destruct (Hall "c" 2 (mkCtl (Some 12) (sess_of "c") [])
              (or_intror (or_intror (or_introl eq_refl))) eq_refl) as [Hc Tc].
  repeat split; auto.
  - apply Ta; simpl; left; reflexivity.
  - apply Tb; simpl; left; reflexivity.
  - apply Tc; simpl; left; reflexivity.
Defined.

(** C7: when [sessionId] is registered, [endSession] first disconnects the
    controller and deletes the registry entry, and only then calls the
    gateway's end-session operation; whatever that call returns, success or
    error, the entry stays deleted. *)
Theorem endSession_removes_before_remote (X : Ext) (api : APIClient) (w : World)
  (sessionId : string) (c : nat) (ctl : Ctl)
  (Hs : amap_get String.eqb sessionId (w_sessions w) = Some c)
  (Hc : amap_get Nat.eqb c (w_ctls w) = Some ctl) :
  exists w1,
    endSession X api sessionId w = api_endSession X api sessionId w1 /\
    w_sessions w1 = amap_delete String.eqb sessionId (w_sessions w) /\
    amap_get Nat.eqb c (w_ctls w1) = Some (set_room ctl None) /\
    w_trace w1 = (w_trace w ++ teardown X ctl ++
                  emitted X SESSION_ENDED ctl (w_now w) (PSession (ctl_session ctl)))%list /\
    w_sessions (snd (endSession X api sessionId w)) = amap_delete String.eqb sessionId (w_sessions w) /\
    w_trace (snd (endSession X api sessionId w)) =
      (w_trace w1 ++ [IOFetch (baseUrl api ++ "/v1" ++ "/sessions/" ++ sessionId ++ "/end") "POST"
                             (Some (apiKey api))])%list.
Proof.
  pose proof (disconnect_ctl_after X w c ctl Hc c) as Hafter; rewrite Nat.eqb_refl in Hafter.
  set (wd := snd (disconnect X c w)) in Hafter.
  assert (Hd : disconnect X c w = (Ok tt, wd)).
  { unfold wd; rewrite (disconnect_spec X w c ctl Hc); reflexivity. }
  set (w1 := mkWorld (w_rooms wd) (w_ctls wd)
                     (amap_delete String.eqb sessionId (w_sessions wd)) (w_next wd) (w_now wd) (w_trace wd)).
  assert (He : endSession X api sessionId w = api_endSession X api sessionId w1).
  { unfold endSession, bind at 1, get_sessions; rewrite Hs.
    unfold bind at 2; unfold bind at 1; rewrite Hd; reflexivity. }
  assert (Hwd : w_sessions wd = w_sessions w /\
                w_trace wd = (w_trace w ++ teardown X ctl ++
                              emitted X SESSION_ENDED ctl (w_now w) (PSession (ctl_session ctl)))%list).
  { unfold wd; rewrite (disconnect_spec X w c ctl Hc); split; reflexivity. }
  destruct Hwd as [Hws Hwt].
  assert (Hend : snd (api_endSession X api sessionId w1) =
                 add_trace w1 [IOFetch (baseUrl api ++ "/v1" ++ "/sessions/" ++ sessionId ++ "/end")
                                       "POST" (Some (apiKey api))]).
  { unfold api_endSession, bind.
    rewrite <- (request_frame X api ("/sessions/" ++ sessionId ++ "/end") "POST" w1).
    destruct (request X api _ "POST" w1) as [[j|e] w2]; reflexivity. }
  exists w1; rewrite He, Hend; simpl.
  repeat split; try assumption.
  - rewrite Hws; reflexivity.
  - rewrite Hws; reflexivity.
Qed.

Lemma endSession_removes_before_remote_witness :
  (amap_get String.eqb "s1" (w_sessions w0) = Some 0 /\ amap_get Nat.eqb 0 (w_ctls w0) = Some ctl0) /\
  w_sessions (snd (endSession ext0 api0 "s1" w0)) = [].
Proof.
  split; [split; reflexivity|].
  destruct (endSession_removes_before_remote ext0 api0 w0 "s1" 0 ctl0 eq_refl eq_refl)
    as (w1 & _ & _ & _ & _ & Hs & _).
  rewrite Hs; reflexivity.
Defined.

(** C8: on a registry hit [getSession] returns the cached controller and
    touches nothing (no network call, no change); on a miss it calls the
    gateway once, and either caches a new, never-connected controller for
    the fetched session (under the fetched session's [id]) and returns it,
    or, when the call fails in any way, returns [null]: it never throws. *)
Theorem getSession_cache_then_fetch (X : Ext) (api : APIClient) (w : World) (sessionId : string) :
  (forall c, amap_get String.eqb sessionId (w_sessions w) = Some c ->
     getSession X api sessionId w = (Ok (Some c), w)) /\
  (amap_get String.eqb sessionId (w_sessions w) = None ->
     w_trace (snd (api_getSession X api sessionId w)) =
       (w_trace w ++ [IOFetch (baseUrl api ++ "/v1" ++ "/sessions/" ++ sessionId) "GET"
                              (Some (apiKey api))])%list /\
     match api_getSession X api sessionId w with
     | (Ok s, w1) =>
         getSession X api sessionId w =
           (Ok (Some (w_next w1)),
            mkWorld (w_rooms w1) (amap_set Nat.eqb (w_next w1) (mkCtl None s []) (w_ctls w1))
                    (amap_set String.eqb (s_id s) (w_next w1) (w_sessions w1))
                    (S (w_next w1)) (w_now w1) (w_trace w1))
     | (Throw _, w1) => getSession X api sessionId w = (Ok None, w1)
     end).
Proof.
  split.
  - intros c Hs; unfold getSession, bind, get_sessions; rewrite Hs; reflexivity.
  - intros Hs; split.
    + rewrite api_getSession_frame; reflexivity.
    + destruct (api_getSession X api sessionId w) as [[s|e] w1] eqn:E;
        unfold getSession, catch, bind, get_sessions; rewrite Hs, E; reflexivity.
Qed.

Lemma getSession_cache_then_fetch_witness :
  getSession ext0 api0 "s1" w0 = (Ok (Some 0), w0) /\
  fst (getSession ext0 api0 "s2" w0) = Ok None.
Proof.
  destruct (getSession_cache_then_fetch ext0 api0 w0 "s1") as [Hhit _].
  destruct (getSession_cache_then_fetch ext0 api0 w0 "s2") as [_ Hmiss].
  split; [apply Hhit; reflexivity|].
  destruct (Hmiss eq_refl) as [_ Hm].
  destruct (api_getSession ext0 api0 "s2" w0) as [[s|e] w1] eqn:E.
  - vm_compute in E; discriminate.
  - rewrite Hm; reflexivity.
Defined.




(** An HTTP 429 answer whose body is the JSON text [null]: reading
    [errorData.message] throws a TypeError inside [handleErrorResponse], and
    [request] reports it as a network error, not as a rate-limit error. *)
Lemma null_rate_limit_body_is_network_error :
  fst (request (ext_http "null") api0 "/avatars" "GET" w0) =
    Throw (ExnSdk (SoulCypherError
                     "Request failed: Cannot read properties of null (reading 'message')"
                     (Some "NETWORK_ERROR") None)).
Proof. vm_compute; reflexivity. Qed.

(** * Further properties of the code *)




(** X3: [SoulCypherSDK.ping()] never throws.  It makes one request, to
    [baseUrl/health] (outside [/v1]) without the API key, and answers
    [true] exactly when the response is 2xx and its body is readable JSON. *)
Theorem ping_never_throws (X : Ext) (api : APIClient) (w : World) :
  ping X api w =
    (Ok (match x_fetch X (baseUrl api ++ "/health") "GET" with
         | FetchRejected _ => false
         | FetchResponse r =>
             response_ok r && match resp_body r with
                              | Ok t => option_is_some (x_json_parse X t)
                              | Throw _ => false
                              end
         end),
     add_trace w [IOFetch (baseUrl api ++ "/health") "GET" None]).
Proof.
  unfold ping, api_ping, catch, bind, tell.
  destruct (x_fetch X _ "GET") as [e|r].
  - destruct e; reflexivity.
  - destruct (response_ok r); simpl; [|reflexivity].
    unfold response_json, response_text, bind.
    destruct (resp_body r); simpl; [destruct (x_json_parse X a)|]; reflexivity.
Qed.


(** X5: what a gateway call yields.  A failed [fetch] that is not an SDK
    error becomes a [NETWORK_ERROR] ["Request failed: ..."]; a non-2xx
    answer always fails with an SDK error; a 2xx answer gives the parsed
    body, but an unreadable or non-JSON 2xx body rejects with the raw
    error (the error of reading the body, or the SyntaxError the host's
    JSON parser raises on its text), not with an SDK error
    ([response.json()] runs outside the [try]). *)
Theorem request_outcome (X : Ext) (api : APIClient) (endpoint method : string) (w : World) :
  match x_fetch X (baseUrl api ++ "/v1" ++ endpoint) method with
  | FetchRejected e =>
      fst (request X api endpoint method w) =
        Throw (match e with
               | ExnSdk _ => e
               | _ => ExnSdk (SoulCypherError ("Request failed: " ++ error_message e)
                                              (Some "NETWORK_ERROR") None)
               end)
  | FetchResponse r =>
      if response_ok r then
        fst (request X api endpoint method w) =
          match resp_body r with
          | Ok t => match x_json_parse X t with
                    | Some j => Ok j
                    | None => Throw (x_json_error X t)
                    end
          | Throw e => Throw e
          end
      else exists err, fst (request X api endpoint method w) = Throw (ExnSdk err)
  end.
Proof.
  unfold request, catch, bind at 1, tell.
  destruct (x_fetch X _ method) as [e|r] eqn:Hf.
  - simpl; unfold throw; destruct e; reflexivity.
  - unfold bind. destruct (response_ok r) eqn:Ho; simpl.
    + unfold response_json, response_text, bind.
      destruct (resp_body r); simpl; [destruct (x_json_parse X a)|]; reflexivity.
    + match goal with |- context [handleErrorResponse X r ?w'] =>
        destruct (handleErrorResponse_throws X r w') as [e He]; rewrite He end.
      unfold throw; destruct e; eexists; reflexivity.
Qed.



Lemma api_createSession_frame X api w :
  snd (api_createSession X api w) =
    add_trace w [IOFetch (baseUrl api ++ "/v1/sessions/create") "POST" (Some (apiKey api))].
Proof.
  unfold api_createSession, bind.
  pose proof (request_frame X api "/sessions/create" "POST" w) as F.
  destruct (request X api "/sessions/create" "POST" w) as [[j|e] w'];
    simpl in F; subst w'; [destruct j|]; reflexivity.
Qed.

Lemma createSession_spec X api w :
  match api_createSession X api w with
  | (Ok s, w') =>
      createSession X api w =
        (Ok (w_next w'),
         mkWorld (w_rooms w') (amap_set Nat.eqb (w_next w') (mkCtl None s []) (w_ctls w'))
                 (amap_set String.eqb (s_id s) (w_next w') (w_sessions w'))
                 (S (w_next w')) (w_now w') (w_trace w'))
  | (Throw e, w') => createSession X api w = (Throw e, w')
  end.
Proof.
  unfold createSession, new_controller, bind, fresh, put_ctl, get_sessions, put_sessions, ret.
  destruct (api_createSession X api w) as [[s|e] w']; reflexivity.
Qed.

(** X7: [createSession] for a session id already in the registry replaces
    the registry entry in place (the registry keeps its size and the id now
    maps to the new controller), and the controller it replaces is neither
    disconnected nor changed: it keeps its room, which stays as it was, and
    the only effect is the one gateway request. *)
Theorem createSession_replaces_without_disconnect (X : Ext) (api : APIClient) (w : World)
  (s : AvatarSession) (old : nat) (octl : Ctl)
  (Hreq : fst (api_createSession X api w) = Ok s)
  (Hold : amap_get String.eqb (s_id s) (w_sessions w) = Some old)
  (Hoc : amap_get Nat.eqb old (w_ctls w) = Some octl)
  (Hfresh : amap_get Nat.eqb (w_next w) (w_ctls w) = None) :
  let '(r, w2) := createSession X api w in
  r = Ok (w_next w) /\
  amap_get String.eqb (s_id s) (w_sessions w2) = Some (w_next w) /\
  length (w_sessions w2) = length (w_sessions w) /\
  amap_get Nat.eqb old (w_ctls w2) = Some octl /\
  w_rooms w2 = w_rooms w /\
  w_trace w2 = (w_trace w ++ [IOFetch (baseUrl api ++ "/v1/sessions/create") "POST" (Some (apiKey api))])%list.
Proof.
  pose proof (createSession_spec X api w) as Hs.
  pose proof (api_createSession_frame X api w) as F.
  destruct (api_createSession X api w) as [[s'|e] w'] eqn:E; simpl in Hreq, F; [|discriminate].
  injection Hreq as ->; subst w'; rewrite Hs; simpl.
  assert (Hne : old <> w_next w) by (intros ->; congruence).
  repeat split.
  - apply (amap_get_set_eq _ string_eqb_iff).
  - destruct (amap_set_length String.eqb (s_id s) (w_next w) (w_sessions w)) as [H|H];
      [exact H | congruence].
  - rewrite (amap_get_set_neq _ nat_eqb_iff) by exact Hne. exact Hoc.
Qed.

Lemma createSession_replaces_without_disconnect_witness :
  (fst (api_createSession (ext_gw 200 "{s1}" (Some (JObj [("id", JStr "s1")]))) api0 w1) =
     Ok (mkAvatarSession "s1" "" "" None None "") /\
   amap_get String.eqb "s1" (w_sessions w1) = Some 0 /\
   amap_get Nat.eqb 0 (w_ctls w1) = Some (set_room ctl0 (Some 5)) /\
   amap_get Nat.eqb (w_next w1) (w_ctls w1) = None) /\
  let '(r, w2) := createSession (ext_gw 200 "{s1}" (Some (JObj [("id", JStr "s1")]))) api0 w1 in
  r = Ok 6 /\
  amap_get String.eqb "s1" (w_sessions w2) = Some 6 /\
  length (w_sessions w2) = 1 /\
  amap_get Nat.eqb 0 (w_ctls w2) = Some (set_room ctl0 (Some 5)) /\
  w_rooms w2 = w_rooms w1 /\
  w_trace w2 = [IOFetch "https://api.soulcypher.ai/v1/sessions/create" "POST" (Some "key-123")].
Proof.
  split; [repeat split; vm_compute; reflexivity|].
  exact (createSession_replaces_without_disconnect (ext_gw 200 "{s1}" (Some (JObj [("id", JStr "s1")])))
           api0 w1 (mkAvatarSession "s1" "" "" None None "") 0 (set_room ctl0 (Some 5))
           ltac:(vm_compute; reflexivity) eq_refl eq_refl eq_refl).
Defined.

(** X8: [createSession] for a new session id creates a never-connected
    controller with no handlers for the fetched session, adds it last to
    the registry, so that [getActiveSessions()] lists it after the earlier
    ones, and a later [getSession] of that id returns it from the registry
    without any request. *)
Theorem createSession_registers_new (X : Ext) (api : APIClient) (w : World) (s : AvatarSession)
  (Hreq : fst (api_createSession X api w) = Ok s)
  (Hnew : amap_get String.eqb (s_id s) (w_sessions w) = None) :
  let '(r, w2) := createSession X api w in
  r = Ok (w_next w) /\
  amap_get Nat.eqb (w_next w) (w_ctls w2) = Some (mkCtl None s []) /\
  fst (getActiveSessions w2) = Ok (map snd (w_sessions w) ++ [w_next w])%list /\
  getSession X api (s_id s) w2 = (Ok (Some (w_next w)), w2).
Proof.
  pose proof (createSession_spec X api w) as Hs.
  pose proof (api_createSession_frame X api w) as F.
  destruct (api_createSession X api w) as [[s'|e] w'] eqn:E; simpl in Hreq, F; [|discriminate].
  injection Hreq as ->; subst w'; rewrite Hs; simpl.
  repeat split.
  - apply (amap_get_set_eq _ nat_eqb_iff).
  - unfold getActiveSessions, bind, get_sessions, ret; simpl.
    rewrite (amap_set_new String.eqb) by exact Hnew.
    now rewrite map_app.
  - unfold getSession, bind, get_sessions; simpl.
    now rewrite (amap_get_set_eq _ string_eqb_iff).
Qed.

Lemma createSession_registers_new_witness :
  (fst (api_createSession (ext_gw 200 "{s2}" (Some (JObj [("id", JStr "s2")]))) api0 w0) =
     Ok (mkAvatarSession "s2" "" "" None None "") /\
   amap_get String.eqb "s2" (w_sessions w0) = None) /\
  let '(r, w2) := createSession (ext_gw 200 "{s2}" (Some (JObj [("id", JStr "s2")]))) api0 w0 in
  r = Ok 1 /\
  amap_get Nat.eqb 1 (w_ctls w2) = Some (mkCtl None (mkAvatarSession "s2" "" "" None None "") []) /\
  fst (getActiveSessions w2) = Ok [0; 1] /\
  getSession (ext_gw 200 "{s2}" (Some (JObj [("id", JStr "s2")]))) api0 "s2" w2 = (Ok (Some 1), w2).
Proof.
  split; [split; vm_compute; reflexivity|].
  exact (createSession_registers_new (ext_gw 200 "{s2}" (Some (JObj [("id", JStr "s2")])))
           api0 w0 (mkAvatarSession "s2" "" "" None None "") ltac:(vm_compute; reflexivity) eq_refl).
Defined.



Lemma indexOf_first h l1 l2 : ~ In h l1 -> indexOf h (l1 ++ h :: l2) = Some (length l1).
Proof.
  induction l1 as [|x t IH]; simpl; intros Hn.
  - now rewrite Nat.eqb_refl.
  - destruct (Nat.eqb x h) eqn:E; [apply Nat.eqb_eq in E; tauto|].
    rewrite IH by tauto; reflexivity.
Qed.

Lemma splice1_at (l1 : list nat) x l2 : splice1 (length l1) (l1 ++ x :: l2) = (l1 ++ l2)%list.
Proof. induction l1 as [|y t IH]; simpl; [reflexivity | now rewrite IH]. Qed.

Lemma on_full c event h ctl w :
  amap_get Nat.eqb c (w_ctls w) = Some ctl ->
  on c event h w =
    (Ok tt, mkWorld (w_rooms w)
                    (amap_set Nat.eqb c
                       (set_handlers ctl (amap_set String.eqb event (handlers_of event ctl ++ [h])%list
                                                   (ctl_handlers ctl)))
                       (w_ctls w))
                    (w_sessions w) (w_next w) (w_now w) (w_trace w)).
Proof.
  intros Hc; unfold on, bind, get_ctl; rewrite Hc; cbn beta iota.
  unfold put_ctl, handlers_of, map_has.
  destruct (amap_get String.eqb event (ctl_handlers ctl)) eqn:E; cbn beta iota.
  - rewrite E; reflexivity.
  - rewrite (amap_get_set_eq _ string_eqb_iff), (amap_set_set _ string_eqb_iff); reflexivity.
Qed.

Lemma off_first c event h ctl w l1 l2 :
  amap_get Nat.eqb c (w_ctls w) = Some ctl ->
  amap_get String.eqb event (ctl_handlers ctl) = Some (l1 ++ h :: l2)%list ->
  ~ In h l1 ->
  off c event h w =
    (Ok tt, mkWorld (w_rooms w)
                    (amap_set Nat.eqb c
                       (set_handlers ctl (amap_set String.eqb event (l1 ++ l2)%list (ctl_handlers ctl)))
                       (w_ctls w))
                    (w_sessions w) (w_next w) (w_now w) (w_trace w)).
Proof.
  intros Hc Hh Hn; unfold off, bind, get_ctl; rewrite Hc; cbn beta iota.
  rewrite Hh, (indexOf_first h l1 l2 Hn), splice1_at; reflexivity.
Qed.

Lemma handlers_of_set ev event l hm ctl :
  handlers_of ev (set_handlers ctl (amap_set String.eqb event l hm)) =
    if String.eqb ev event then l else handlers_of ev (set_handlers ctl hm).
Proof.
  unfold handlers_of; simpl.
  destruct (String.eqb_spec ev event) as [->|Hne].
  - now rewrite (amap_get_set_eq _ string_eqb_iff).
  - now rewrite (amap_get_set_neq _ string_eqb_iff).
Qed.

(** X10: [on(event, h)] followed by [off(event, h)], for a handler [h] not
    yet registered for [event], leaves the controller as it was for every
    event type: the same handlers in the same order (so every later
    emission behaves as before), the same room and session. *)
Theorem on_off_round_trip (c : nat) (event : string) (h : nat) (ctl : Ctl) (w : World)
  (Hc : amap_get Nat.eqb c (w_ctls w) = Some ctl)
  (Hn : ~ In h (handlers_of event ctl)) :
  exists ctl',
    (on c event h ;; off c event h) w =
      (Ok tt, mkWorld (w_rooms w) (amap_set Nat.eqb c ctl' (w_ctls w)) (w_sessions w)
                      (w_next w) (w_now w) (w_trace w)) /\
    ctl_room ctl' = ctl_room ctl /\ ctl_session ctl' = ctl_session ctl /\
    forall ev, handlers_of ev ctl' = handlers_of ev ctl.
Proof.
  set (ctl1 := set_handlers ctl (amap_set String.eqb event (handlers_of event ctl ++ [h])%list
                                          (ctl_handlers ctl))).
  unfold bind at 1; rewrite (on_full c event h ctl w Hc); fold ctl1.
  rewrite (off_first c event h ctl1 _ (handlers_of event ctl) []).
  - exists (set_handlers ctl1 (amap_set String.eqb event (handlers_of event ctl ++ [])%list
                                         (ctl_handlers ctl1))).
    split; [simpl; now rewrite (amap_set_set _ nat_eqb_iff)|].
    split; [reflexivity|]; split; [reflexivity|].
    intros ev; unfold ctl1; simpl.
    rewrite app_nil_r, (amap_set_set _ string_eqb_iff), handlers_of_set.
    destruct (String.eqb_spec ev event) as [->|]; [reflexivity|].
    destruct ctl; reflexivity.
  - simpl; apply (amap_get_set_eq _ nat_eqb_iff).
  - unfold ctl1; simpl; apply (amap_get_set_eq _ string_eqb_iff).
  - exact Hn.
Qed.

Lemma on_off_round_trip_witness :
  (amap_get Nat.eqb 0 (w_ctls w0) = Some ctl0 /\ ~ In 7 (handlers_of SESSION_ENDED ctl0)) /\
  exists ctl',
    (on 0 SESSION_ENDED 7 ;; off 0 SESSION_ENDED 7) w0 =
      (Ok tt, mkWorld (w_rooms w0) (amap_set Nat.eqb 0 ctl' (w_ctls w0)) (w_sessions w0)
                      (w_next w0) (w_now w0) (w_trace w0)) /\
    ctl_room ctl' = None /\ ctl_session ctl' = sess0 /\
    forall ev, handlers_of ev ctl' = handlers_of ev ctl0.
Proof.
  split; [split; [reflexivity | simpl; lia]|].
  exact (on_off_round_trip 0 SESSION_ENDED 7 ctl0 w0 eq_refl ltac:(simpl; lia)).
Defined.

(** X11: [off(event, h)] removes one registration of [h], the earliest:
    with the handlers of [event] being [l1 ++ h :: l2] and [h] not in [l1],
    they become [l1 ++ l2] (a later registration of [h] stays and is still
    invoked), and the handlers of every other event are unchanged. *)
Theorem off_removes_first_registration (c : nat) (event : string) (h : nat) (ctl : Ctl)
  (w : World) (l1 l2 : list nat)
  (Hc : amap_get Nat.eqb c (w_ctls w) = Some ctl)
  (Hh : handlers_of event ctl = (l1 ++ h :: l2)%list)
  (Hn : ~ In h l1) :
  exists ctl',
    off c event h w =
      (Ok tt, mkWorld (w_rooms w) (amap_set Nat.eqb c ctl' (w_ctls w)) (w_sessions w)
                      (w_next w) (w_now w) (w_trace w)) /\
    ctl_room ctl' = ctl_room ctl /\ ctl_session ctl' = ctl_session ctl /\
    handlers_of event ctl' = (l1 ++ l2)%list /\
    (forall ev, ev <> event -> handlers_of ev ctl' = handlers_of ev ctl).
Proof.
  assert (E : amap_get String.eqb event (ctl_handlers ctl) = Some (l1 ++ h :: l2)%list).
  { unfold handlers_of in Hh; destruct (amap_get String.eqb event (ctl_handlers ctl));
      [now rewrite Hh | destruct l1; discriminate]. }
  rewrite (off_first c event h ctl w l1 l2 Hc E Hn).
  eexists; split; [reflexivity|].
  split; [reflexivity|]; split; [reflexivity|]; split.
  - rewrite handlers_of_set, String.eqb_refl; reflexivity.
  - intros ev Hne; rewrite handlers_of_set.
    destruct (String.eqb_spec ev event) as [|_]; [contradiction|].
    destruct ctl; reflexivity.
Qed.

Lemma off_removes_first_registration_witness :
  (amap_get Nat.eqb 0 (w_ctls w_dup) = Some (mkCtl None sess0 [(AVATAR_RESPONSE, [3; 1; 3])]) /\
   handlers_of AVATAR_RESPONSE (mkCtl None sess0 [(AVATAR_RESPONSE, [3; 1; 3])]) = ([] ++ 3 :: [1; 3])%list /\
   ~ In 3 []) /\
  exists ctl',
    off 0 AVATAR_RESPONSE 3 w_dup =
      (Ok tt, mkWorld (w_rooms w_dup) (amap_set Nat.eqb 0 ctl' (w_ctls w_dup)) (w_sessions w_dup)
                      (w_next w_dup) (w_now w_dup) (w_trace w_dup)) /\
    ctl_room ctl' = None /\ ctl_session ctl' = sess0 /\
    handlers_of AVATAR_RESPONSE ctl' = [1; 3] /\
    (forall ev, ev <> AVATAR_RESPONSE -> handlers_of ev ctl' = handlers_of ev (mkCtl None sess0 [(AVATAR_RESPONSE, [3; 1; 3])])).
Proof.
  split; [split; [reflexivity | split; [reflexivity | simpl; lia]]|].
  exact (off_removes_first_registration 0 AVATAR_RESPONSE 3 _ w_dup [] [1; 3]
           eq_refl eq_refl ltac:(simpl; lia)).
Defined.

(** X12: after [disconnect()], [sendMessage] fails with the not-connected
    session error and publishes nothing: the trace holds only what
    [disconnect()] did. *)
Theorem sendMessage_after_disconnect (X : Ext) (w : World) (c : nat) (ctl : Ctl) (message : string)
  (Hc : amap_get Nat.eqb c (w_ctls w) = Some ctl) :
  fst ((disconnect X c ;; sendMessage X c message) w) =
    Throw (ExnSdk (SessionError "Not connected to session")) /\
  w_trace (snd ((disconnect X c ;; sendMessage X c message) w)) =
    (w_trace w ++ teardown X ctl ++
     emitted X SESSION_ENDED ctl (w_now w) (PSession (ctl_session ctl)))%list.
Proof.
  assert (H : (disconnect X c ;; sendMessage X c message) w =
               (Throw (ExnSdk (SessionError "Not connected to session")),
                mkWorld (w_rooms w)
                        (match ctl_room ctl with
                         | Some _ => amap_set Nat.eqb c (set_room ctl None) (w_ctls w)
                         | None => w_ctls w
                         end)
                        (w_sessions w) (w_next w) (w_now w)
                        (w_trace w ++ teardown X ctl ++
                         emitted X SESSION_ENDED ctl (w_now w) (PSession (ctl_session ctl)))%list)).
  { unfold bind; rewrite (disconnect_spec X w c ctl Hc); cbn beta iota.
    destruct (ctl_room ctl) as [rid|] eqn:R.
    - rewrite (sendMessage_spec X _ c (set_room ctl None))
        by (simpl; apply (amap_get_set_eq _ nat_eqb_iff)).
      reflexivity.
    - rewrite (sendMessage_spec X _ c ctl) by exact Hc; rewrite R.
      reflexivity. }
  rewrite H; split; reflexivity.
Qed.

Lemma sendMessage_after_disconnect_witness :
  amap_get Nat.eqb 0 (w_ctls w1) = Some (set_room ctl0 (Some 5)) /\
  fst ((disconnect ext0 0 ;; sendMessage ext0 0 "hi") w1) =
    Throw (ExnSdk (SessionError "Not connected to session")) /\
  w_trace (snd ((disconnect ext0 0 ;; sendMessage ext0 0 "hi") w1)) =
    (teardown ext0 (set_room ctl0 (Some 5)) ++
     emitted ext0 SESSION_ENDED (set_room ctl0 (Some 5)) (w_now w1) (PSession sess0))%list.
Proof.
  split; [reflexivity|].
  exact (sendMessage_after_disconnect ext0 w1 0 (set_room ctl0 (Some 5)) "hi" eq_refl).
Defined.

(** X13: [getStatus()] follows the controller's life: ["connected"] right
    after a successful [connect()], ["disconnected"] once the transport
    reports [Disconnected], and ["disconnected"] after [disconnect()]. *)
Theorem getStatus_lifecycle (X : Ext) (w : World) (c : nat) (ctl : Ctl)
  (Hc : amap_get Nat.eqb c (w_ctls w) = Some ctl)
  (Htok : truthy_str (s_liveKitToken (ctl_session ctl)) = true)
  (Hurl : truthy_str (s_liveKitUrl (ctl_session ctl)) = true)
  (Hok : x_room_connect X (w_next w) (default_str (s_liveKitUrl (ctl_session ctl)))
                        (default_str (s_liveKitToken (ctl_session ctl))) = ConnOk) :
  fst ((connect X c None None ;; getStatus c) w) = Ok "connected" /\
  fst ((connect X c None None ;; room_emit X (w_next w) REDisconnected ;; getStatus c) w) =
    Ok "disconnected" /\
  fst ((connect X c None None ;; disconnect X c ;; getStatus c) w) = Ok "disconnected".
Proof.
  split; [|split].
  - unfold bind at 1; rewrite (connect_ok_spec X w c ctl Hc Htok Hurl Hok); cbn beta iota.
    unfold getStatus; run_maps; reflexivity.
  - unfold bind at 1; rewrite (connect_ok_spec X w c ctl Hc Htok Hurl Hok); cbn beta iota.
    unfold room_emit, set_room_state, run_listeners, run_listener, onDisconnected.
    run_maps.
    rewrite (emitEvent_spec X c (set_room ctl (Some (w_next w))))
      by (simpl; apply (amap_get_set_eq _ nat_eqb_iff)).
    unfold getStatus; run_maps; reflexivity.
  - unfold bind at 1; rewrite (connect_ok_spec X w c ctl Hc Htok Hurl Hok); cbn beta iota.
    unfold bind at 1.
    rewrite (disconnect_spec X _ c (set_room ctl (Some (w_next w))))
      by (simpl; apply (amap_get_set_eq _ nat_eqb_iff)).
    unfold getStatus; run_maps; reflexivity.
Qed.

Lemma getStatus_lifecycle_witness :
  (amap_get Nat.eqb 0 (w_ctls w0) = Some ctl0 /\
   truthy_str (s_liveKitToken (ctl_session ctl0)) = true /\
   truthy_str (s_liveKitUrl (ctl_session ctl0)) = true /\
   x_room_connect ext0 (w_next w0) "wss://x" "tok" = ConnOk) /\
  fst ((connect ext0 0 None None ;; getStatus 0) w0) = Ok "connected" /\
  fst ((connect ext0 0 None None ;; room_emit ext0 (w_next w0) REDisconnected ;; getStatus 0) w0) =
    Ok "disconnected" /\
  fst ((connect ext0 0 None None ;; disconnect ext0 0 ;; getStatus 0) w0) = Ok "disconnected".
Proof.
  split; [repeat split|].
  exact (getStatus_lifecycle ext0 w0 0 ctl0 eq_refl eq_refl eq_refl eq_refl).
Defined.

(** X14: [connect()] on a controller that is already connected opens a
    second room and never tears the first one down: the controller now
    holds the second room, the first stays connected with the four
    listeners of the controller, and the trace holds two transport
    connections and two [session.started] emissions but no transport
    disconnect. *)
Theorem connect_twice_keeps_first_room (X : Ext) (w : World) (c : nat) (ctl : Ctl)
  (Hc : amap_get Nat.eqb c (w_ctls w) = Some ctl)
  (Htok : truthy_str (s_liveKitToken (ctl_session ctl)) = true)
  (Hurl : truthy_str (s_liveKitUrl (ctl_session ctl)) = true)
  (Hok1 : x_room_connect X (w_next w) (default_str (s_liveKitUrl (ctl_session ctl)))
                         (default_str (s_liveKitToken (ctl_session ctl))) = ConnOk)
  (Hok2 : x_room_connect X (S (w_next w)) (default_str (s_liveKitUrl (ctl_session ctl)))
                         (default_str (s_liveKitToken (ctl_session ctl))) = ConnOk) :
  let url := default_str (s_liveKitUrl (ctl_session ctl)) in
  let token := default_str (s_liveKitToken (ctl_session ctl)) in
  let started := emitted X SESSION_STARTED ctl (w_now w) (PSession (ctl_session ctl)) in
  let '(r, w') := (connect X c None None ;; connect X c None None) w in
  r = Ok tt /\
  amap_get Nat.eqb c (w_ctls w') = Some (set_room ctl (Some (S (w_next w)))) /\
  amap_get Nat.eqb (w_next w) (w_rooms w') =
    Some (mkRoom RSConnected [LTrackSubscribed c; LDataReceived c; LDisconnected c; LQualityChanged c]) /\
  w_trace w' =
    (w_trace w ++ [IORoomConnect (w_next w) url token] ++ started ++
     [IORoomConnect (S (w_next w)) url token] ++ started)%list.
Proof.
  intros url token started.
  unfold bind at 1; rewrite (connect_ok_spec X w c ctl Hc Htok Hurl Hok1); cbn beta iota.
  rewrite (connect_ok_spec X _ c (set_room ctl (Some (w_next w))))
    by first [ simpl; apply (amap_get_set_eq _ nat_eqb_iff) | exact Htok | exact Hurl | exact Hok2 ].
  cbn [w_rooms w_ctls w_trace w_next w_sessions w_now fst snd].
  split; [reflexivity|]; split; [|split].
  - rewrite (amap_get_set_eq _ nat_eqb_iff).
    destruct ctl; reflexivity.
  - rewrite !(amap_get_set_neq _ nat_eqb_iff) by lia.
    apply (amap_get_set_eq _ nat_eqb_iff).
  - unfold started, url, token; rewrite <- !app_assoc; reflexivity.
Qed.

Lemma connect_twice_keeps_first_room_witness :
  (amap_get Nat.eqb 0 (w_ctls w0) = Some ctl0 /\
   truthy_str (s_liveKitToken (ctl_session ctl0)) = true /\
   truthy_str (s_liveKitUrl (ctl_session ctl0)) = true /\
   x_room_connect ext0 1 "wss://x" "tok" = ConnOk /\
   x_room_connect ext0 2 "wss://x" "tok" = ConnOk) /\
  let '(r, w') := (connect ext0 0 None None ;; connect ext0 0 None None) w0 in
  r = Ok tt /\
  amap_get Nat.eqb 0 (w_ctls w') = Some (set_room ctl0 (Some 2)) /\
  amap_get Nat.eqb 1 (w_rooms w') =
    Some (mkRoom RSConnected [LTrackSubscribed 0; LDataReceived 0; LDisconnected 0; LQualityChanged 0]) /\
  w_trace w' =
    ([IORoomConnect 1 "wss://x" "tok"] ++ emitted ext0 SESSION_STARTED ctl0 (w_now w0) (PSession sess0) ++
     [IORoomConnect 2 "wss://x" "tok"] ++ emitted ext0 SESSION_STARTED ctl0 (w_now w0) (PSession sess0))%list.
Proof.
  split; [repeat split|].
  exact (connect_twice_keeps_first_room ext0 w0 0 ctl0 eq_refl eq_refl eq_refl eq_refl eq_refl).
Defined.

(** X15: a data-channel payload that decodes to a JSON object is never
    dropped with a warning: its [type] alone decides the event, exactly
    one [avatar.status] (with its [status] and [text]), [avatar.response]
    or [avatar.error] (with its [text]) for the three known types, and none
    for any other type; the listener never throws. *)
Theorem data_message_dispatch (X : Ext) (w : World) (c : nat) (ctl : Ctl)
  (payload : list Byte.byte) (participant : nat) (kvs : list (string * json))
  (Hc : amap_get Nat.eqb c (w_ctls w) = Some ctl)
  (Hp : x_json_parse X (x_text_decode X payload) = Some (JObj kvs)) :
  onDataReceived X c payload participant w =
    (Ok tt, add_trace w (match avatar_message kvs participant with
                         | Some (ty, d) => emitted X ty ctl (w_now w) d
                         | None => []
                         end)).
Proof.
  unfold onDataReceived, catch; rewrite Hp.
  unfold avatar_message, bind, get_prop, ret, js_str_eq; cbn beta iota.
  destruct (assoc_last "type" kvs) as [[| | | t | |]|]; cbn beta iota;
    try (rewrite add_trace_nil; reflexivity).
  destruct (String.eqb t MESSAGE_STATUS);
    [rewrite (emitEvent_spec X c ctl) by exact Hc; reflexivity|].
  destruct (String.eqb t MESSAGE_RESPONSE);
    [rewrite (emitEvent_spec X c ctl) by exact Hc; reflexivity|].
  destruct (String.eqb t MESSAGE_ERROR);
    [rewrite (emitEvent_spec X c ctl) by exact Hc; reflexivity|].
  rewrite add_trace_nil; reflexivity.
Qed.

Lemma data_message_dispatch_witness :
  (amap_get Nat.eqb 0 (w_ctls w0) = Some ctl0 /\
   x_json_parse (ext_gw 200 "{response}" (Some (JObj [("type", JStr "response"); ("text", JStr "hello")])))
     (x_text_decode (ext_gw 200 "{response}" (Some (JObj [("type", JStr "response"); ("text", JStr "hello")]))) []) =
     Some (JObj [("type", JStr "response"); ("text", JStr "hello")])) /\
  onDataReceived (ext_gw 200 "{response}" (Some (JObj [("type", JStr "response"); ("text", JStr "hello")]))) 0 [] 9 w0 =
    (Ok tt, add_trace w0 (emitted (ext_gw 200 "{response}" (Some (JObj [("type", JStr "response"); ("text", JStr "hello")])))
                                  AVATAR_RESPONSE ctl0 (w_now w0) (PText (Some (JStr "hello")) 9))).
Proof.
  split; [split; [reflexivity | vm_compute; reflexivity]|].
  exact (data_message_dispatch (ext_gw 200 "{response}" (Some (JObj [("type", JStr "response"); ("text", JStr "hello")])))
           w0 0 ctl0 [] 9 _ eq_refl ltac:(vm_compute; reflexivity)).
Defined.

